(** * Indic Recipe collector: validation, image store, recipe file, uploader

    A shallow embedding of [app.py].  Python values are modelled as the
    program has them: a [str] is a sequence of Unicode code points, the
    uploaded image is a byte string, the working directory and the two
    Streamlit caches are an explicit state that every operation threads,
    and the Hugging Face client is an oracle that is consulted once per
    call and whose calls are logged. *)

From Stdlib Require Import ZArith NArith List Ascii String Lia Bool.
From Stdlib Require Import Strings.Byte Decimal DecimalZ.
From stdpp Require Import base option list gmap.

Local Open Scope nat_scope.

(** ** Python strings *)

(** A Python [str] is a sequence of code points; [len] counts them. *)
Abbreviation char := N (only parsing).
Abbreviation str := (list N) (only parsing).

(** The code point of an ASCII character and the [str] of an ASCII literal. *)
Definition ord (a : ascii) : char := N_of_ascii a.

Definition py (s : string) : str := map ord (list_ascii_of_string s).

(** [str.isspace] on one code point: CPython's whitespace table
    (U+0009..U+000D, U+001C..U+0020, U+0085, U+00A0, U+1680,
    U+2000..U+200A, U+2028, U+2029, U+202F, U+205F, U+3000). *)
Definition isspace (c : char) : bool :=
  (((9 <=? c) && (c <=? 13)) || ((28 <=? c) && (c <=? 32)) ||
   (c =? 133) || (c =? 160) || (c =? 5760) ||
   ((8192 <=? c) && (c <=? 8202)) ||
   (c =? 8232) || (c =? 8233) || (c =? 8239) || (c =? 8287) ||
   (c =? 12288))%N.

Fixpoint lstrip (s : str) : str :=
  match s with
  | c :: s' => if isspace c then lstrip s' else s
  | [] => []
  end.

Definition rstrip (s : str) : str := rev (lstrip (rev s)).

(** [s.strip()] with no argument. *)
Definition strip (s : str) : str := rstrip (lstrip s).

(** [s.replace(a, b)] for one-character [a] and [b]. *)
Definition replace_char (a b : char) (s : str) : str :=
  map (fun c => if (c =? a)%N then b else c) s.

(** [s.split(sep)[-1]] for a one-character separator: what follows the
    last occurrence of [sep], or the whole of [s] when there is none. *)
Fixpoint split_last (sep : char) (s : str) : str :=
  match s with
  | [] => []
  | c :: s' =>
      if existsb (N.eqb sep) s' then split_last sep s'
      else if (c =? sep)%N then s' else s
  end.

(** ** Validator *)

Module Validator.

Definition name_error : str :=
  py "Recipe name must be at least 3 characters long".
Definition ingredients_error : str :=
  py "Ingredients must be at least 10 characters long".
Definition instructions_error : str :=
  py "Instructions must be at least 20 characters long".

(** [not x or len(x.strip()) < n], for a field that may be [None]. *)
Definition too_short (x : option str) (n : nat) : bool :=
  match x with
  | None => true
  | Some s => match s with [] => true | _ => length (strip s) <? n end
  end.

Definition validate_recipe_data (name ingredients instructions : option str)
  : list str :=
  let errors := [] in
  let errors :=
    if too_short name 3 then errors ++ [name_error] else errors in
  let errors :=
    if too_short ingredients 10 then errors ++ [ingredients_error]
    else errors in
  let errors :=
    if too_short instructions 20 then errors ++ [instructions_error]
    else errors in
  errors.

(** The length the rules look at: an absent field counts as length 0. *)
Definition trimmed_length (x : option str) : nat :=
  match x with
  | None => 0
  | Some s => length (strip s)
  end.

End Validator.

(** ** Content digest

    [hashlib.md5(data).hexdigest()]: the MD5 message digest of RFC 1321 over
    32-bit words, written in lower-case hexadecimal. *)

Module MD5.

Local Open Scope Z_scope.

Definition w32 (x : Z) : Z := x mod 2 ^ 32.

Definition rotl (x s : Z) : Z :=
  w32 (Z.lor (Z.shiftl x s) (Z.shiftr x (32 - s))).

Definition not32 (x : Z) : Z := Z.lxor x 4294967295.

(** [K[i] = floor(2^32 * abs(sin(i + 1)))]. *)
Definition K : list Z :=
  [ 0xd76aa478; 0xe8c7b756; 0x242070db; 0xc1bdceee;
    0xf57c0faf; 0x4787c62a; 0xa8304613; 0xfd469501;
    0x698098d8; 0x8b44f7af; 0xffff5bb1; 0x895cd7be;
    0x6b901122; 0xfd987193; 0xa679438e; 0x49b40821;
    0xf61e2562; 0xc040b340; 0x265e5a51; 0xe9b6c7aa;
    0xd62f105d; 0x02441453; 0xd8a1e681; 0xe7d3fbc8;
    0x21e1cde6; 0xc33707d6; 0xf4d50d87; 0x455a14ed;
    0xa9e3e905; 0xfcefa3f8; 0x676f02d9; 0x8d2a4c8a;
    0xfffa3942; 0x8771f681; 0x6d9d6122; 0xfde5380c;
    0xa4beea44; 0x4bdecfa9; 0xf6bb4b60; 0xbebfbc70;
    0x289b7ec6; 0xeaa127fa; 0xd4ef3085; 0x04881d05;
    0xd9d4d039; 0xe6db99e5; 0x1fa27cf8; 0xc4ac5665;
    0xf4292244; 0x432aff97; 0xab9423a7; 0xfc93a039;
    0x655b59c3; 0x8f0ccc92; 0xffeff47d; 0x85845dd1;
    0x6fa87e4f; 0xfe2ce6e0; 0xa3014314; 0x4e0811a1;
    0xf7537e82; 0xbd3af235; 0x2ad7d2bb; 0xeb86d391 ].

(** Per-round left rotations. *)
Definition shifts : list Z :=
  [ 7; 12; 17; 22; 7; 12; 17; 22; 7; 12; 17; 22; 7; 12; 17; 22;
    5; 9; 14; 20; 5; 9; 14; 20; 5; 9; 14; 20; 5; 9; 14; 20;
    4; 11; 16; 23; 4; 11; 16; 23; 4; 11; 16; 23; 4; 11; 16; 23;
    6; 10; 15; 21; 6; 10; 15; 21; 6; 10; 15; 21; 6; 10; 15; 21 ].

Definition byteZ (b : Byte.byte) : Z := Z.of_N (Byte.to_N b).

(** The four bytes of a 32-bit word, least significant first. *)
Definition le4 (x : Z) : list Z :=
  [ x mod 256; (x / 256) mod 256; (x / 65536) mod 256;
    (x / 16777216) mod 256 ].

(** A little-endian word from up to four bytes. *)
Definition word_of (bs : list Z) : Z :=
  fold_right (fun b acc => b + 256 * acc) 0 bs.

(** The message, a single 1 bit, zeros up to 56 modulo 64 bytes, and the
    bit length modulo [2^64] on eight bytes. *)
Definition pad (msg : list Byte.byte) : list Z :=
  let n := Z.of_nat (length msg) in
  let bits := (8 * n) mod 2 ^ 64 in
  map byteZ msg ++ [128] ++ repeat 0 (Z.to_nat ((55 - n) mod 64))
    ++ le4 (bits mod 2 ^ 32) ++ le4 (bits / 2 ^ 32).

(** Consecutive groups of [n] elements; [fuel] bounds the number of groups. *)
Fixpoint chunks {A} (n : nat) (fuel : nat) (l : list A) : list (list A) :=
  match fuel with
  | O => []
  | S fuel' =>
      match l with
      | [] => []
      | _ => firstn n l :: chunks n fuel' (skipn n l)
      end
  end.

Definition words (block : list Z) : list Z :=
  map word_of (chunks 4 16 block).

Definition state : Type := Z * Z * Z * Z.

Definition init : state := (0x67452301, 0xefcdab89, 0x98badcfe, 0x10325476).

(** One of the 64 operations on a block with message words [m]. *)
Definition step (m : list Z) (st : state) (i : nat) : state :=
  let '(a, b, c, d) := st in
  let iz := Z.of_nat i in
  let '(f, g) :=
    if iz <? 16 then (Z.lor (Z.land b c) (Z.land (not32 b) d), iz)
    else if iz <? 32 then
      (Z.lor (Z.land d b) (Z.land (not32 d) c), (5 * iz + 1) mod 16)
    else if iz <? 48 then (Z.lxor b (Z.lxor c d), (3 * iz + 5) mod 16)
    else (Z.lxor c (Z.lor b (not32 d)), (7 * iz) mod 16) in
  let f' := w32 (f + a + nth i K 0 + nth (Z.to_nat g) m 0) in
  (d, w32 (b + rotl f' (nth i shifts 0)), b, c).

Definition compress (st : state) (block : list Z) : state :=
  let '(a0, b0, c0, d0) := st in
  let '(a, b, c, d) := fold_left (step (words block)) (seq 0 64) st in
  (w32 (a0 + a), w32 (b0 + b), w32 (c0 + c), w32 (d0 + d)).

Definition digest_state (msg : list Byte.byte) : state :=
  let p := pad msg in
  fold_left compress (chunks 64 (length p) p) init.

(** The 16 bytes of the digest. *)
Definition digest_bytes (st : state) : list Z :=
  let '(a, b, c, d) := st in le4 a ++ le4 b ++ le4 c ++ le4 d.

(** One lower-case hexadecimal digit, as a code point. *)
Definition hex_digit (n : Z) : char :=
  Z.to_N (if n <? 10 then 48 + n else 87 + n).

Definition hex_byte (b : Z) : str := [hex_digit (b / 16); hex_digit (b mod 16)].

Definition hexdigest (msg : list Byte.byte) : str :=
  flat_map hex_byte (digest_bytes (digest_state msg)).

End MD5.

(** ** Image names *)

Definition IMAGES_DIR : str := py "recipe_images".
Definition DATA_FILE : str := py "recipes.csv".

(** What [st.file_uploader] hands over: [image_file.name] and
    [image_file.getvalue()]. *)
Record uploaded_file := UploadedFile {
  file_name : str;
  getvalue : list Byte.byte
}.

(** [str.isalnum] on the ASCII range. *)
Definition ascii_isalnum (c : char) : bool :=
  (((48 <=? c) && (c <=? 57)) || ((65 <=? c) && (c <=? 90)) ||
   ((97 <=? c) && (c <=? 122)))%N.

(** [hashlib.md5(image_file.getvalue()).hexdigest()[:8]] *)
Definition file_hash (image_file : uploaded_file) : str :=
  firstn 8 (MD5.hexdigest (getvalue image_file)).

(** [image_file.name.split('.')[-1]] *)
Definition extension (image_file : uploaded_file) : str :=
  split_last (ord ".") (file_name image_file).

(** ** The recipe table

    One row of the table has the twelve keys of [recipe_data], in the order
    the dictionary is built. *)
Record row (A : Type) := Row {
  name : A;
  language : A;
  region : A;
  ingredients : A;
  instructions : A;
  prep_time_minutes : A;
  cook_time_minutes : A;
  total_time_minutes : A;
  servings : A;
  difficulty : A;
  image_filename : A;
  date_added : A
}.

Arguments Row {A}.
Arguments name {A}.
Arguments language {A}.
Arguments region {A}.
Arguments ingredients {A}.
Arguments instructions {A}.
Arguments prep_time_minutes {A}.
Arguments cook_time_minutes {A}.
Arguments total_time_minutes {A}.
Arguments servings {A}.
Arguments difficulty {A}.
Arguments image_filename {A}.
Arguments date_added {A}.

Definition row_map {A B} (f : A -> B) (r : row A) : row B :=
  {| name := f (name r);
     language := f (language r);
     region := f (region r);
     ingredients := f (ingredients r);
     instructions := f (instructions r);
     prep_time_minutes := f (prep_time_minutes r);
     cook_time_minutes := f (cook_time_minutes r);
     total_time_minutes := f (total_time_minutes r);
     servings := f (servings r);
     difficulty := f (difficulty r);
     image_filename := f (image_filename r);
     date_added := f (date_added r) |}.

Definition row_zip {A B C} (f : A -> B -> C) (r1 : row A) (r2 : row B)
  : row C :=
  {| name := f (name r1) (name r2);
     language := f (language r1) (language r2);
     region := f (region r1) (region r2);
     ingredients := f (ingredients r1) (ingredients r2);
     instructions := f (instructions r1) (instructions r2);
     prep_time_minutes := f (prep_time_minutes r1) (prep_time_minutes r2);
     cook_time_minutes := f (cook_time_minutes r1) (cook_time_minutes r2);
     total_time_minutes := f (total_time_minutes r1) (total_time_minutes r2);
     servings := f (servings r1) (servings r2);
     difficulty := f (difficulty r1) (difficulty r2);
     image_filename := f (image_filename r1) (image_filename r2);
     date_added := f (date_added r1) (date_added r2) |}.

(** The columns of a table given by rows: one list per key. *)
Definition columns {A} (rs : list (row A)) : row (list A) :=
  {| name := map name rs;
     language := map language rs;
     region := map region rs;
     ingredients := map ingredients rs;
     instructions := map instructions rs;
     prep_time_minutes := map prep_time_minutes rs;
     cook_time_minutes := map cook_time_minutes rs;
     total_time_minutes := map total_time_minutes rs;
     servings := map servings rs;
     difficulty := map difficulty rs;
     image_filename := map image_filename rs;
     date_added := map date_added rs |}.

(** A key of the table, as the projection it names, and the twelve keys. *)
Definition field : Type := forall A : Type, row A -> A.

Definition all_fields : list field :=
  [ @name; @language; @region; @ingredients; @instructions;
    @prep_time_minutes; @cook_time_minutes; @total_time_minutes;
    @servings; @difficulty; @image_filename; @date_added ].

(** *** Decimal integers *)

Fixpoint uint_str (u : uint) : str :=
  match u with
  | Nil => []
  | D0 u => 48%N :: uint_str u
  | D1 u => 49%N :: uint_str u
  | D2 u => 50%N :: uint_str u
  | D3 u => 51%N :: uint_str u
  | D4 u => 52%N :: uint_str u
  | D5 u => 53%N :: uint_str u
  | D6 u => 54%N :: uint_str u
  | D7 u => 55%N :: uint_str u
  | D8 u => 56%N :: uint_str u
  | D9 u => 57%N :: uint_str u
  end.

(** [str(z)] for a Python [int], which is also how an [int64] column is
    written. *)
Definition render_int (z : Z) : str :=
  match Z.to_int z with
  | Pos u => uint_str u
  | Neg u => ord "-" :: uint_str u
  end.

Definition digit (c : char) : option (uint -> uint) :=
  match c with
  | 48%N => Some D0
  | 49%N => Some D1
  | 50%N => Some D2
  | 51%N => Some D3
  | 52%N => Some D4
  | 53%N => Some D5
  | 54%N => Some D6
  | 55%N => Some D7
  | 56%N => Some D8
  | 57%N => Some D9
  | _ => None
  end.

Fixpoint str_uint (s : str) : option uint :=
  match s with
  | [] => Some Nil
  | c :: s' =>
      match digit c, str_uint s' with
      | Some d, Some u => Some (d u)
      | _, _ => None
      end
  end.

Definition parse_int (s : str) : option Z :=
  match s with
  | 45%N :: s' => option_map (fun u => Z.of_int (Neg u)) (str_uint s')
  | _ => option_map (fun u => Z.of_int (Pos u)) (str_uint s)
  end.

Definition int64 (z : Z) : bool := ((- 2 ^ 63 <=? z) && (z <? 2 ^ 63))%Z.

(** *** Cells and their text

    The table library is pandas; what follows is its behaviour under the
    defaults the program uses ([to_csv(index=False)], [read_csv(path)]).
    The delimited-text layer itself (separators, quoting, line ends) is
    transparent for the texts it protects, so a file is modelled as the
    table of its field texts. *)

(** A value in a cell of a [DataFrame].  [VLib col tok] is the value the
    reader derives from the field text [tok] when it gives the column with
    field texts [col] a numeric or boolean type of its own choosing. *)
Inductive cell :=
| VStr (s : str)
| VInt (z : Z)
| VNone
| VNaN
| VLib (col : list str) (tok : str).

Inductive dtype :=
| DInt
| DLib (col : list str)
| DObject.

(** The field texts [read_csv] takes for a missing value (the default
    [na_values] of pandas 2). *)
Definition na_values : list str :=
  [] :: map py [ "#N/A"; "#N/A N/A"; "#NA"; "-1.#IND"; "-1.#QNAN"; "-NaN";
           "-nan"; "1.#IND"; "1.#QNAN"; "<NA>"; "N/A"; "NA"; "NULL"; "NaN";
           "None"; "n/a"; "nan"; "null" ]%string.

Definition is_na (t : str) : bool := bool_decide (t ∈ na_values).

(** A decimal integer exactly as [render_int] writes it, in [int64] range. *)
Definition int_token (t : str) : option Z :=
  match parse_int t with
  | Some z => if int64 z && bool_decide (render_int z = t) then Some z else None
  | None => None
  end.

Definition lower (c : char) : char :=
  if ((65 <=? c) && (c <=? 90))%N then (c + 32)%N else c.

Definition numeric_char (c : char) : bool :=
  (((48 <=? c) && (c <=? 57)) || ((9 <=? c) && (c <=? 13)) || (c =? 32))%N
  || bool_decide (c ∈ py "+-.eE").

Definition lib_words : list str :=
  map py [ "inf"; "+inf"; "-inf"; "infinity"; "+infinity"; "-infinity";
           "nan"; "+nan"; "-nan"; "true"; "false" ]%string.

(** Field texts that the reader may take for a number or a boolean: written
    with digits, signs, a point and an exponent mark only, or one of the
    words it knows, in any letter case.  Every text the reader converts is
    of this shape. *)
Definition lib_like (t : str) : bool :=
  forallb numeric_char t || bool_decide (map lower (strip t) ∈ lib_words).

(** Characters that a field of the file does not hold as written: the
    writer quotes a field for a line feed but not for a carriage return,
    which the reader takes for a line end; NUL; and what UTF-8 cannot
    encode (a surrogate, a number beyond U+10FFFF). *)
Definition unprotected_char (c : char) : bool :=
  ((c =? 0) || (c =? 13) || ((55296 <=? c) && (c <=? 57343))
   || (1114111 <? c))%N.

Definition storable (t : str) : bool := negb (existsb unprotected_char t).

Definition storable_line (l : row str) : bool :=
  forallb (fun f : field => storable (f str l)) all_fields.

Inductive token_kind :=
| TNa
| TInt (z : Z)
| TLib
| TText.

Definition classify (t : str) : token_kind :=
  if is_na t then TNa
  else match int_token t with
       | Some z => TInt z
       | None => if lib_like t || negb (storable t) then TLib else TText
       end.

Definition is_int (t : str) : bool :=
  match classify t with TInt _ => true | _ => false end.

Definition is_text (t : str) : bool :=
  match classify t with TText => true | _ => false end.

(** The type the reader gives a column: integers when every field is one;
    strings as soon as one field is plain text; otherwise a type of the
    reader's choosing (floating point when fields are missing or
    fractional, boolean, ...). *)
Definition col_dtype (col : list str) : dtype :=
  match col with
  | [] => DObject
  | _ =>
      if forallb is_int col then DInt
      else if existsb is_text col then DObject
      else DLib col
  end.

(** The value of one field in a column of type [d]. *)
Definition conv (d : dtype) (t : str) : cell :=
  match classify t with
  | TNa => VNaN
  | k =>
      match d with
      | DObject => VStr t
      | DInt => match k with TInt z => VInt z | _ => VStr t end
      | DLib col => VLib col t
      end
  end.

(** A [DataFrame] over the recipe columns. *)
Record frame := Frame {
  dtypes : row dtype;
  rows : list (row cell)
}.

(** [pd.DataFrame()]: no rows. *)
Definition DataFrame_empty : frame :=
  {| dtypes := Row DObject DObject DObject DObject DObject DObject
                 DObject DObject DObject DObject DObject DObject;
     rows := [] |}.

Definition cell_dtype (v : cell) : dtype :=
  match v with
  | VInt _ => DInt
  | VLib col _ => DLib col
  | VNaN => DLib []
  | VStr _ | VNone => DObject
  end.

(** [pd.DataFrame([record])] *)
Definition DataFrame (record : row cell) : frame :=
  {| dtypes := row_map cell_dtype record; rows := [record] |}.

(** The common type of a column when two frames are stacked. *)
Definition join_dtype (d1 d2 : dtype) : dtype :=
  match d1, d2 with
  | DInt, DInt => DInt
  | DObject, _ | _, DObject => DObject
  | DLib c1, DLib c2 => DLib (c1 ++ c2)
  | DLib c, DInt | DInt, DLib c => DLib c
  end.

(** An integer stacked into a column of the reader's own numeric type takes
    that type. *)
Definition coerce (other : dtype) (v : cell) : cell :=
  match other, v with
  | DLib col, VInt z => VLib col (render_int z)
  | _, _ => v
  end.

(** [pd.concat([a, b], ignore_index=True)] for frames over the recipe
    columns. *)
Definition concat (a b : frame) : frame :=
  {| dtypes := row_zip join_dtype (dtypes a) (dtypes b);
     rows := map (row_zip coerce (dtypes b)) (rows a)
             ++ map (row_zip coerce (dtypes a)) (rows b) |}.

(** The content of [recipes.csv]: a table of field texts under the header
    of the twelve keys, or bytes that [read_csv] rejects with error text
    [err]. *)
Inductive csv_file :=
| Table (lines : list (row str))
| Unparsable (err : str).

(** [pd.read_csv] on a table. *)
Definition read_table (lines : list (row str)) : frame :=
  let ds := row_map col_dtype (columns lines) in
  {| dtypes := ds; rows := map (row_zip conv ds) lines |}.

(** ** Process state, exceptions and the remote side *)

Inductive exn :=
| OSError (msg : str)
| ParserError (msg : str)
| HubError (msg : str).

(** [str(e)] *)
Definition str_exn (e : exn) : str :=
  match e with
  | OSError msg | ParserError msg | HubError msg => msg
  end.

(** One [api.upload_file(...)] call. *)
Record upload_call := UploadCall {
  path_or_fileobj : str;
  path_in_repo : str;
  repo_id : str;
  repo_type : str;
  token : str
}.

(** What [initialize_hf_api] returns: [(HfApi(), True)] or
    [(None, str(e))]. *)
Inductive hf_result :=
| Client
| LoginFailed (login_result : str).

(** The working directory, the two Streamlit caches and the calls made on
    the remote repository so far, oldest first. *)
Record world := World {
  data_file : option csv_file;
  images_dir : option (gmap str (list Byte.byte));
  load_cache : option frame;
  hf_cache : gmap str hf_result;
  uploads : list upload_call
}.

(** The Hugging Face side.  [login t] is [Some msg] when [login(token=t)]
    raises an exception whose text is [msg]; [upload_file log c] is
    [Some msg] when the call [c], made after the calls [log], raises. *)
Record hub := Hub {
  login : str -> option str;
  upload_file : list upload_call -> upload_call -> option str
}.

(** A computation either returns a value or raises; both leave a state. *)
Inductive result (A : Type) :=
| Ok (a : A) (w : world)
| Raise (e : exn) (w : world).

Arguments Ok {A}.
Arguments Raise {A}.

Definition M (A : Type) : Type := world -> result A.

Definition ret {A} (a : A) : M A := fun w => Ok a w.

Definition raise {A} (e : exn) : M A := fun w => Raise e w.

Definition bind {A B} (m : M A) (k : A -> M B) : M B :=
  fun w =>
    match m w with
    | Ok a w' => k a w'
    | Raise e w' => Raise e w'
    end.

Notation "'let*' x ':=' m 'in' k" := (bind m (fun x => k))
  (at level 10, x name, m at level 100, k at level 200).

Notation "m ';;' k" := (bind m (fun _ => k))
  (at level 100, k at level 200, right associativity).

(** [try: m  except Exception as e: h e] *)
Definition try_except {A} (m : M A) (h : exn -> M A) : M A :=
  fun w =>
    match m w with
    | Ok a w' => Ok a w'
    | Raise e w' => h e w'
    end.

(** [for x in xs: body x] *)
Fixpoint for_each {A} (xs : list A) (body : A -> M unit) : M unit :=
  match xs with
  | [] => ret tt
  | x :: xs' => body x;; for_each xs' body
  end.

Definition get {A} (f : world -> A) : M A := fun w => Ok (f w) w.

Definition with_data_file (c : option csv_file) (w : world) : world :=
  {| data_file := c; images_dir := images_dir w;
     load_cache := load_cache w; hf_cache := hf_cache w;
     uploads := uploads w |}.

Definition with_images_dir (d : option (gmap str (list Byte.byte)))
    (w : world) : world :=
  {| data_file := data_file w; images_dir := d;
     load_cache := load_cache w; hf_cache := hf_cache w;
     uploads := uploads w |}.

Definition with_load_cache (c : option frame) (w : world) : world :=
  {| data_file := data_file w; images_dir := images_dir w;
     load_cache := c; hf_cache := hf_cache w;
     uploads := uploads w |}.

Definition with_hf_cache (c : gmap str hf_result) (w : world) : world :=
  {| data_file := data_file w; images_dir := images_dir w;
     load_cache := load_cache w; hf_cache := c;
     uploads := uploads w |}.

Definition with_uploads (l : list upload_call) (w : world) : world :=
  {| data_file := data_file w; images_dir := images_dir w;
     load_cache := load_cache w; hf_cache := hf_cache w;
     uploads := l |}.

Definition modify (f : world -> world) : M unit := fun w => Ok tt (f w).

Definition set_data_file (c : option csv_file) : M unit :=
  modify (with_data_file c).

Definition set_images_dir (d : option (gmap str (list Byte.byte))) : M unit :=
  modify (with_images_dir d).

Definition set_load_cache (c : option frame) : M unit :=
  modify (with_load_cache c).

Definition set_hf_cache (c : gmap str hf_result) : M unit :=
  modify (with_hf_cache c).

Definition set_uploads (l : list upload_call) : M unit :=
  modify (with_uploads l).

(** [os.path.exists(DATA_FILE)] *)
Definition data_file_exists : M bool :=
  get (fun w => match data_file w with Some _ => true | None => false end).

(** [pd.read_csv(DATA_FILE)] *)
Definition read_csv : M frame :=
  let* f := get data_file in
  match f with
  | Some (Table lines) => ret (read_table lines)
  | Some (Unparsable err) => raise (ParserError err)
  | None =>
      raise (OSError (py "[Errno 2] No such file or directory: 'recipes.csv'"))
  end.

(** The form of the page: the widgets' values on submission, and the clock
    reading [datetime.now().strftime(...)]. *)
Record form := Form {
  recipe_name : str;
  form_language : str;
  form_region : str;
  form_ingredients : str;
  form_instructions : str;
  prep_time : Z;
  cook_time : Z;
  form_servings : Z;
  form_difficulty : str;
  image_file : option uploaded_file;
  now : str
}.

(** A cell holding a text or [None]. *)
Definition opt_cell (x : option str) : cell :=
  match x with Some s => VStr s | None => VNone end.

(** The dictionary the form handler builds. *)
Definition recipe_data (f : form) (image_filename : option str) : row cell :=
  {| name := VStr (strip (recipe_name f));
     language := VStr (form_language f);
     region := VStr (match form_region f with
                     | [] => []
                     | r => strip r
                     end);
     ingredients := VStr (strip (form_ingredients f));
     instructions := VStr (strip (form_instructions f));
     prep_time_minutes := VInt (prep_time f);
     cook_time_minutes := VInt (cook_time f);
     total_time_minutes := VInt (prep_time f + cook_time f);
     servings := VInt (form_servings f);
     difficulty := VStr (form_difficulty f);
     image_filename := opt_cell image_filename;
     date_added := VStr (now f) |}.

(** [load_existing_data.clear()] *)
Definition load_existing_data_clear : M unit := set_load_cache None.

(** [load_existing_data], under [st.cache_data]: the body runs when nothing
    is cached, and what it returns is cached. *)
Definition load_existing_data : M frame :=
  let* c := get load_cache in
  match c with
  | Some df => ret df
  | None =>
      let* present := data_file_exists in
      let* df := (if present then read_csv else ret DataFrame_empty) in
      set_load_cache (Some df);;
      ret df
  end.

(** [initialize_hf_api], under [st.cache_resource] keyed by the token. *)
Definition initialize_hf_api (h : hub) (token : str) : M hf_result :=
  let* c := get hf_cache in
  match c !! token with
  | Some r => ret r
  | None =>
      let r := match login h token with
               | None => Client
               | Some msg => LoginFailed msg
               end in
      set_hf_cache (<[token := r]> c);;
      ret r
  end.

(** [api.upload_file(...)]: the call is made, and raises when the remote
    side refuses it. *)
Definition api_upload_file (h : hub) (c : upload_call) : M unit :=
  let* log := get uploads in
  set_uploads (log ++ [c]);;
  match upload_file h log c with
  | None => ret tt
  | Some msg => raise (HubError msg)
  end.

(** [list(Path(IMAGES_DIR).glob("*"))], by file name. *)
Definition glob_images (d : gmap str (list Byte.byte)) : list str :=
  map fst (map_to_list d).

Definition upload_to_huggingface (h : hub) (repo_id token : str)
    (include_images : bool) : M (bool * str) :=
  let* present := data_file_exists in
  if negb present then ret (false, py "No local dataset found.")
  else
    let* api := initialize_hf_api h token in
    match api with
    | LoginFailed login_result =>
        ret (false, py "Login failed: " ++ login_result)
    | Client =>
        try_except
          (api_upload_file h
             {| path_or_fileobj := DATA_FILE;
                path_in_repo := py "recipes.csv";
                repo_id := repo_id;
                repo_type := py "dataset";
                token := token |};;
           let* dir := get images_dir in
           (if include_images then
              match dir with
              | Some d =>
                  for_each (glob_images d) (fun img_name =>
                    api_upload_file h
                      {| path_or_fileobj := IMAGES_DIR ++ py "/" ++ img_name;
                         path_in_repo := py "images/" ++ img_name;
                         repo_id := repo_id;
                         repo_type := py "dataset";
                         token := token |})
              | None => ret tt
              end
            else ret tt);;
           ret (true,
                py "Dataset uploaded successfully to: https://huggingface.co/datasets/"
                  ++ repo_id))
          (fun e => ret (false, py "Upload failed: " ++ str_exn e))
    end.

(** ** Configuration file

    [json.dump] and [json.load] on a dictionary from texts to texts, which
    is what the program keeps in [app_config.json]: the writer with its
    defaults ([ensure_ascii], separators [", "] and [": "]), the reader in
    its strict mode. *)

Module Json.

Local Open Scope N_scope.

(** One hexadecimal digit, lower case, and the four digits of [n]. *)
Definition hex_digit (n : N) : N := if n <? 10 then 48 + n else 87 + n.

Definition hex4 (n : N) : list N :=
  [ hex_digit (n / 4096); hex_digit ((n / 256) mod 16);
    hex_digit ((n / 16) mod 16); hex_digit (n mod 16) ].

(** The escape [\uXXXX]. *)
Definition escape_u (n : N) : list N := 92 :: 117 :: hex4 n.

(** How the writer writes one character of a text: the short escapes,
    printable ASCII as it is, and [\uXXXX] for the rest, as a surrogate
    pair beyond U+FFFF. *)
Definition encode_char (c : N) : list N :=
  if c =? 34 then [92; 34]
  else if c =? 92 then [92; 92]
  else if c =? 10 then [92; 110]
  else if c =? 13 then [92; 114]
  else if c =? 9 then [92; 116]
  else if c =? 8 then [92; 98]
  else if c =? 12 then [92; 102]
  else if (32 <=? c) && (c <=? 126) then [c]
  else if c <? 65536 then escape_u c
  else
    let n := c - 65536 in
    escape_u (55296 + (n / 1024) mod 1024) ++ escape_u (56320 + n mod 1024).

(** A text between quotes. *)
Definition quote (t : list N) : list N :=
  34 :: flat_map encode_char t ++ [34].

(** One [key: value] member. *)
Definition member (kv : list N * list N) : list N :=
  quote (fst kv) ++ [58; 32] ++ quote (snd kv).

(** [json.dumps(config)] *)
Definition dumps (config : list (list N * list N)) : list N :=
  match config with
  | [] => [123; 125]
  | kv :: rest =>
      123 :: member kv
        ++ flat_map (fun kv' => [44; 32] ++ member kv') rest ++ [125]
  end.

Definition hex_value (c : N) : option N :=
  if (48 <=? c) && (c <=? 57) then Some (c - 48)
  else if (97 <=? c) && (c <=? 102) then Some (c - 87)
  else if (65 <=? c) && (c <=? 70) then Some (c - 55)
  else None.

Definition parse_hex4 (a b c d : N) : option N :=
  match hex_value a, hex_value b, hex_value c, hex_value d with
  | Some x, Some y, Some z, Some t => Some (((x * 16 + y) * 16 + z) * 16 + t)
  | _, _, _, _ => None
  end.

Definition high_surrogate (n : N) : bool := (55296 <=? n) && (n <=? 56319).
Definition low_surrogate (n : N) : bool := (56320 <=? n) && (n <=? 57343).

(** The character that follows a backslash, for the short escapes. *)
Definition short_escape (e : N) : option N :=
  if e =? 34 then Some 34
  else if e =? 92 then Some 92
  else if e =? 47 then Some 47
  else if e =? 98 then Some 8
  else if e =? 102 then Some 12
  else if e =? 110 then Some 10
  else if e =? 114 then Some 13
  else if e =? 116 then Some 9
  else None.

Definition cons_text (c : N) (r : option (list N * list N))
  : option (list N * list N) :=
  match r with
  | Some (t, rest) => Some (c :: t, rest)
  | None => None
  end.

(** The reader on the inside of a text, from after its opening quote: the
    text and what follows its closing quote.  [None]: the reader raises. *)
Fixpoint scanstring (s : list N) : option (list N * list N) :=
  match s with
  | [] => None
  | c :: rest =>
      if c =? 34 then Some ([], rest)
      else if c =? 92 then
        match rest with
        | [] => None
        | e :: rest1 =>
            if e =? 117 then
              match rest1 with
              | a :: b :: c1 :: d :: rest2 =>
                  match parse_hex4 a b c1 d with
                  | None => None
                  | Some uni =>
                      match rest2 with
                      | bs :: u :: a' :: b' :: c' :: d' :: rest3 =>
                          if high_surrogate uni && (bs =? 92) && (u =? 117)
                          then
                            match parse_hex4 a' b' c' d' with
                            | None => None
                            | Some uni2 =>
                                if low_surrogate uni2 then
                                  cons_text
                                    (65536 + ((uni - 55296) * 1024
                                              + (uni2 - 56320)))
                                    (scanstring rest3)
                                else cons_text uni (scanstring rest2)
                            end
                          else cons_text uni (scanstring rest2)
                      | _ => cons_text uni (scanstring rest2)
                      end
                  end
              | _ => None
              end
            else
              match short_escape e with
              | Some c' => cons_text c' (scanstring rest1)
              | None => None
              end
        end
      else if c <? 32 then None
      else cons_text c (scanstring rest)
  end.

Definition whitespace (c : N) : bool :=
  (c =? 32) || (c =? 9) || (c =? 10) || (c =? 13).

Fixpoint skip_ws (s : list N) : list N :=
  match s with
  | c :: s' => if whitespace c then skip_ws s' else s
  | [] => []
  end.

(** The members of an object, from after the opening quote of a key, up to
    the closing brace: the pairs read and what follows the brace.  A value
    that is not a text is not read. *)
Fixpoint members (fuel : nat) (s : list N)
  : option (list (list N * list N) * list N) :=
  match fuel with
  | O => None
  | S fuel' =>
      match scanstring s with
      | None => None
      | Some (key, s1) =>
          match skip_ws s1 with
          | 58 :: s2 =>
              match skip_ws s2 with
              | 34 :: s3 =>
                  match scanstring s3 with
                  | None => None
                  | Some (value, s4) =>
                      match skip_ws s4 with
                      | 125 :: s5 => Some ([(key, value)], s5)
                      | 44 :: s5 =>
                          match skip_ws s5 with
                          | 34 :: s6 =>
                              match members fuel' s6 with
                              | Some (kvs, s7) =>
                                  Some ((key, value) :: kvs, s7)
                              | None => None
                              end
                          | _ => None
                          end
                      | _ => None
                      end
                  end
              | _ => None
              end
          | _ => None
          end
      end
  end.

End Json.

Definition CONFIG_FILE : str := py "app_config.json".

(** [config[key] = value] on a dictionary kept in insertion order. *)
Fixpoint dict_set (key value : str) (config : list (str * str))
  : list (str * str) :=
  match config with
  | [] => [(key, value)]
  | (k, v) :: config' =>
      if bool_decide (k = key) then (key, value) :: config'
      else (k, v) :: dict_set key value config'
  end.


(** [dict(pairs)]: a later pair with the same key replaces the value. *)
Definition dict_of (pairs : list (str * str)) : list (str * str) :=
  fold_left (fun config kv => dict_set (fst kv) (snd kv) config) pairs [].

(** [json.loads(text)] for an object whose values are texts.  [None]: the
    reader raises, or the text holds something else than such an object. *)
Definition json_loads (text : str) : option (list (str * str)) :=
  match Json.skip_ws text with
  | 123%N :: s1 =>
      match Json.skip_ws s1 with
      | 125%N :: s2 =>
          match Json.skip_ws s2 with
          | [] => Some []
          | _ => None
          end
      | 34%N :: s2 =>
          match Json.members (length s2) s2 with
          | Some (pairs, s3) =>
              match Json.skip_ws s3 with
              | [] => Some (dict_of pairs)
              | _ => None
              end
          | None => None
          end
      | _ => None
      end
  | _ => None
  end.

(** [save_config(config)]: the content of [app_config.json] afterwards. *)
Definition save_config (config : list (str * str)) : option str :=
  Some (Json.dumps config).

(** [load_config()], given the content of [app_config.json] if it exists.
    [None]: [json.load] raises. *)
Definition load_config (config_file : option str)
  : option (list (str * str)) :=
  match config_file with
  | Some text => json_loads text
  | None => Some []
  end.

(** What a run of the script does with the settings: the configuration is
    loaded, and a token or a repository that was entered is set in it and
    saved.  The result is the content of [app_config.json] afterwards;
    [None]: the run stops at [load_config]. *)
Definition keep_settings (config_file : option str)
    (hf_token_input repo_id : str) : option (option str) :=
  match load_config config_file with
  | None => None
  | Some config =>
      let '(config, config_file) :=
        match hf_token_input with
        | [] => (config, config_file)
        | _ =>
            let config := dict_set (py "hf_token") hf_token_input config in
            (config, save_config config)
        end in
      let '(config, config_file) :=
        match repo_id with
        | [] => (config, config_file)
        | _ =>
            let config := dict_set (py "repo_id") repo_id config in
            (config, save_config config)
        end in
      Some config_file
  end.

(** ** Operations that depend on library tables *)

Section App.

(** [str.isalnum] beyond ASCII is decided by the interpreter's Unicode
    character database. *)
Variable unicode_isalnum : char -> bool.

(** How [to_csv] writes a value to which the reader gave a type of its own
    choosing, from the field texts of the column and of the value. *)
Variable lib_repr : list str -> str -> str.

(** What [to_csv] leaves in the file, and the exception it raises if any,
    when a field text is not [storable]. *)
Variable unprotected : list (row str) -> csv_file * option exn.

Definition isalnum (c : char) : bool :=
  if (c <? 128)%N then ascii_isalnum c else unicode_isalnum c.

(** [c.isalnum() or c in (' ', '-', '_')] *)
Definition kept (c : char) : bool :=
  isalnum c || (c =? ord " ")%N || (c =? ord "-")%N || (c =? ord "_")%N.

Definition safe_name (recipe_name : str) : str :=
  let safe_name := strip (List.filter kept recipe_name) in
  replace_char (ord " ") (ord "_") safe_name.

(** The [filename] that [save_image] computes. *)
Definition filename (image_file : uploaded_file) (recipe_name : str) : str :=
  safe_name recipe_name ++ py "_" ++ file_hash image_file ++ py "."
    ++ extension image_file.

(** [open(filepath, "wb")] and [f.write(data)] for a file placed directly in
    [recipe_images/], a flat directory. *)
Definition write_image (filename : str) (data : list Byte.byte) : M unit :=
  let* dir := get images_dir in
  match dir with
  | Some d =>
      if existsb (N.eqb (ord "/")) filename then
        raise (OSError (py "[Errno 2] No such file or directory: '"
                          ++ IMAGES_DIR ++ py "/" ++ filename ++ py "'"))
      else set_images_dir (Some (<[filename := data]> d))
  | None =>
      raise (OSError (py "[Errno 2] No such file or directory: '"
                        ++ IMAGES_DIR ++ py "/" ++ filename ++ py "'"))
  end.

Definition save_image (image_file : option uploaded_file) (recipe_name : str)
  : M (option str) :=
  match image_file with
  | Some image_file =>
      let filename := filename image_file recipe_name in
      write_image filename (getvalue image_file);;
      ret (Some filename)
  | None => ret None
  end.

(** The text [to_csv] writes for a cell. *)
Definition render (v : cell) : str :=
  match v with
  | VStr s => s
  | VInt z => render_int z
  | VNone | VNaN => []
  | VLib col tok => lib_repr col tok
  end.

(** [df.to_csv(DATA_FILE, index=False)] *)
Definition to_csv (df : frame) : M unit :=
  let lines := map (row_map render) (rows df) in
  if forallb storable_line lines then set_data_file (Some (Table lines))
  else
    set_data_file (Some (fst (unprotected lines)));;
    match snd (unprotected lines) with
    | Some e => raise e
    | None => ret tt
    end.

Definition save_recipe_locally (recipe_data : row cell) : M unit :=
  let df_new := DataFrame recipe_data in
  let* present := data_file_exists in
  let* df :=
    (if present then
       let* df_existing := read_csv in
       ret (concat df_existing df_new)
     else ret df_new) in
  to_csv df;;
  load_existing_data_clear.

(** What the handler of the Save button reports. *)
Inductive outcome :=
| Rejected (errors : list str)
| Saved.

(** The handler of the Save button, after [if submitted:]. *)
Definition submit (f : form) : M outcome :=
  let errors :=
    Validator.validate_recipe_data (Some (recipe_name f))
      (Some (form_ingredients f)) (Some (form_instructions f)) in
  match errors with
  | _ :: _ => ret (Rejected errors)
  | [] =>
      let* image_filename :=
        (match image_file f with
         | Some _ => save_image (image_file f) (recipe_name f)
         | None => ret None
         end) in
      save_recipe_locally (recipe_data f image_filename);;
      ret Saved
  end.


(** ** The rest of the page *)

(** [df.empty] *)
Definition frame_empty (df : frame) : bool :=
  match rows df with [] => true | _ => false end.

(** The handler of the Upload button: the flag tells [st.success] from
    [st.error], the text is what is shown. *)
Definition upload_clicked (h : hub) (hf_token_input repo_id : str)
    (df_existing : frame) (include_images : bool) : M (bool * str) :=
  match hf_token_input with
  | [] => ret (false, py "Please enter your HF token first")
  | _ =>
      match repo_id with
      | [] => ret (false, py "Please enter a repository ID")
      | _ =>
          if frame_empty df_existing then
            ret (false, py "No recipes to upload")
          else upload_to_huggingface h repo_id hf_token_input include_images
      end
  end.

(** [df.tail(n)] *)
Definition tail (n : nat) (df : frame) : list (row cell) :=
  skipn (length (rows df) - n) (rows df).

(** The recent recipes of the page: name and language of the rows of
    [df_existing.tail(5)], when the frame is not empty. *)
Definition recent_recipes (df_existing : frame) : list (cell * cell) :=
  if frame_empty df_existing then []
  else map (fun r => (name r, language r)) (tail 5 df_existing).

(** [df_existing.to_csv(index=False)], the text offered for download. *)
Definition csv_data (df_existing : frame) : csv_file :=
  let lines := map (row_map render) (rows df_existing) in
  if forallb storable_line lines then Table lines
  else fst (unprotected lines).

(** ** Vocabulary of the statements *)

(** A lower-case hexadecimal digit. *)
Definition is_hex (c : char) : bool :=
  (((48 <=? c) && (c <=? 57)) || ((97 <=? c) && (c <=? 102)))%N.

(** The characters a sanitized name is made of. *)
Definition name_char (c : char) : Prop :=
  isalnum c = true \/ c = ord "-" \/ c = ord "_".

(** The call that sends the table, and the call that sends one image. *)
Definition dataset_call (repo_id token : str) : upload_call :=
  {| path_or_fileobj := DATA_FILE;
     path_in_repo := py "recipes.csv";
     repo_id := repo_id;
     repo_type := py "dataset";
     token := token |}.

Definition image_call (repo_id token img_name : str) : upload_call :=
  {| path_or_fileobj := IMAGES_DIR ++ py "/" ++ img_name;
     path_in_repo := py "images/" ++ img_name;
     repo_id := repo_id;
     repo_type := py "dataset";
     token := token |}.

(** The calls one upload is to make, in order. *)
Definition upload_plan (w : world) (repo_id token : str)
    (include_images : bool) : list upload_call :=
  dataset_call repo_id token ::
  (if include_images then
     match images_dir w with
     | Some d => map (image_call repo_id token) (glob_images d)
     | None => []
     end
   else []).

(** The remote side accepts the calls [calls], made in order after the
    calls [log]. *)
Fixpoint accepted (h : hub) (log calls : list upload_call) : Prop :=
  match calls with
  | [] => True
  | c :: calls' =>
      upload_file h log c = None /\ accepted h (log ++ [c]) calls'
  end.

(** What [read_csv] makes of a cell that [to_csv] wrote: an empty text and
    [None] both come back as the missing value. *)
Definition normalise (v : cell) : cell :=
  match v with
  | VStr [] | VNone => VNaN
  | _ => v
  end.

(** A text cell that is empty, absent, or text the reader keeps as text. *)
Definition text_cell (v : cell) : Prop :=
  match v with
  | VStr s => s = [] \/ is_text s = true
  | VNone => True
  | _ => False
  end.

(** An integer cell within the range of an [int64] column. *)
Definition int_cell (v : cell) : Prop :=
  match v with
  | VInt z => int64 z = true
  | _ => False
  end.

(** The kind of cell the program puts under each key. *)
Definition kinds : row (cell -> Prop) :=
  {| name := text_cell;
     language := text_cell;
     region := text_cell;
     ingredients := text_cell;
     instructions := text_cell;
     prep_time_minutes := int_cell;
     cook_time_minutes := int_cell;
     total_time_minutes := int_cell;
     servings := int_cell;
     difficulty := text_cell;
     image_filename := text_cell;
     date_added := text_cell |}.

Definition row_all (r : row Prop) : Prop :=
  name r /\ language r /\ region r /\ ingredients r /\ instructions r /\
  prep_time_minutes r /\ cook_time_minutes r /\ total_time_minutes r /\
  servings r /\ difficulty r /\ image_filename r /\ date_added r.

(** A record whose texts the reader keeps and whose integers fit. *)
Definition plain_record (r : row cell) : Prop :=
  row_all (row_zip (fun k v => k v) kinds r).

(** The backing file that holds the records [rs], oldest first. *)
Definition file_of (rs : list (row cell)) : option csv_file :=
  match rs with
  | [] => None
  | _ => Some (Table (map (row_map render) rs))
  end.

(** How a cell [v] of a new record reads back as [v'] once the record has
    been added to a file whose column held the field texts [old]. *)
Definition reads_back (old : list str) (v v' : cell) : Prop :=
  match v with
  | VStr s =>
      (is_na s = true -> v' = VNaN) /\ (is_text s = true -> v' = VStr s)
  | VNone => v' = VNaN
  | VInt z => int64 z = true -> forallb is_int old = true -> v' = VInt z
  | VNaN | VLib _ _ => True
  end.

(** The frame that [save_recipe_locally] hands to [to_csv] and the field
    texts it is written with. *)
Definition stacked (w : world) (r : row cell) : frame :=
  match data_file w with
  | Some (Table lines) => concat (read_table lines) (DataFrame r)
  | _ => DataFrame r
  end.

Definition written_lines (w : world) (r : row cell) : list (row str) :=
  map (row_map render) (rows (stacked w r)).

(** The field texts of the backing file, when it is a table. *)
Definition lines_of (w : world) : list (row str) :=
  match data_file w with
  | Some (Table lines) => lines
  | _ => []
  end.

(** A Unicode scalar value: a code point that is no surrogate. *)
Definition scalar (c : char) : bool :=
  ((c <? 55296) || ((57343 <? c) && (c <? 1114112)))%N.

(** A configuration whose keys are distinct and whose texts are made of
    scalar values. *)
Definition wf_config (config : list (str * str)) : Prop :=
  NoDup (map fst config) /\
  Forall (fun kv => forallb scalar (fst kv) = true /\
                    forallb scalar (snd kv) = true) config.

(** What [json.dumps] writes after the opening quote of the key of [kv],
    when the members [rest] follow. *)
Fixpoint members_text (kv : str * str) (rest : list (str * str)) : str :=
  flat_map Json.encode_char (fst kv) ++ [34; 58; 32; 34]%N
    ++ flat_map Json.encode_char (snd kv)
    ++ 34%N :: match rest with
               | [] => [125%N]
               | kv' :: rest' => [44; 32; 34]%N ++ members_text kv' rest'
               end.

(** A printable ASCII character other than the quote and the backslash:
    what [json.dumps] writes as it is. *)
Definition plain_char (c : char) : bool :=
  ((32 <=? c) && (c <=? 126) && negb (c =? 34) && negb (c =? 92))%N.

(** ** Sample inputs *)

(** A character database with no letter or digit beyond ASCII, a writer
    that leaves the reader's values as their field texts, and one that
    writes unprotected texts as they are: the library tables, as far as the
    samples need them. *)
Definition ascii_only : char -> bool := fun _ => false.

Definition verbatim : list str -> str -> str := fun _ tok => tok.

Definition no_fault : list (row str) -> csv_file * option exn :=
  fun lines => (Table lines, None).

Definition photo : uploaded_file :=
  {| file_name := py "photo.jpg"; getvalue := [x00; x72; x58] |}.

Definition other_photo : uploaded_file :=
  {| file_name := py "photo.jpg"; getvalue := [x00; xbe; x9f] |}.

Definition dal_form : form :=
  {| recipe_name := py "Dal";
     form_language := py "Hindi";
     form_region := [];
     form_ingredients := py "rice, dal, water, salt";
     form_instructions := py "boil everything together for twenty minutes";
     prep_time := 20;
     cook_time := 40;
     form_servings := 4;
     form_difficulty := py "Easy";
     image_file := None;
     now := py "2024-01-15 10:30:00" |}.

Definition biryani_form : form :=
  {| recipe_name := py "Hyderabadi Biryani!";
     form_language := py "Telugu";
     form_region := py " Telangana ";
     form_ingredients := py "basmati rice, chicken, yoghurt, saffron";
     form_instructions := py "marinate, layer with rice and cook on dum";
     prep_time := 30;
     cook_time := 45;
     form_servings := 6;
     form_difficulty := py "Hard";
     image_file := Some photo;
     now := py "2024-01-16 18:05:00" |}.

Definition dal_line : row str :=
  {| name := py "Dal";
     language := py "Hindi";
     region := [];
     ingredients := py "rice, dal, water, salt";
     instructions := py "boil everything together for twenty minutes";
     prep_time_minutes := py "20";
     cook_time_minutes := py "40";
     total_time_minutes := py "60";
     servings := py "4";
     difficulty := py "Easy";
     image_filename := [];
     date_added := py "2024-01-15 10:30:00" |}.

(** A process that has just started in an empty working directory. *)
Definition fresh : world :=
  {| data_file := None;
     images_dir := Some ∅;
     load_cache := None;
     hf_cache := ∅;
     uploads := [] |}.

(** One recipe and two images on disk; the cache still holds the empty
    frame that was loaded before the recipe was saved by another process. *)
Definition stocked : world :=
  {| data_file := Some (Table [dal_line]);
     images_dir :=
       Some (<[py "Dal_4a636c03.jpg" := [x00; x72; x58]]>
               (<[py "Idli_0cc175b9.png" := [x61]]> ∅));
     load_cache := Some DataFrame_empty;
     hf_cache := ∅;
     uploads := [] |}.

(** A remote side that accepts everything, one that rejects every token,
    and one that accepts the first call and refuses the later ones. *)
Definition open_hub : hub :=
  {| login := fun _ => None; upload_file := fun _ _ => None |}.

Definition closed_hub : hub :=
  {| login := fun _ => Some (py "Invalid user token.");
     upload_file := fun _ _ => None |}.

Definition flaky_hub : hub :=
  {| login := fun _ => None;
     upload_file := fun log _ =>
       match log with
       | [] => None
       | _ => Some (py "503 Service Unavailable")
       end |}.

(** A process whose image directory was removed after the start, and one
    whose backing file the reader cannot parse. *)
Definition no_directory : world :=
  {| data_file := None;
     images_dir := None;
     load_cache := None;
     hf_cache := ∅;
     uploads := [] |}.

Definition damaged : world :=
  {| data_file := Some (Unparsable (py "Error tokenizing data"));
     images_dir := Some ∅;
     load_cache := None;
     hf_cache := ∅;
     uploads := [] |}.

(** A form that fails the three rules. *)
Definition hasty_form : form :=
  {| recipe_name := py " Hi ";
     form_language := py "Hindi";
     form_region := [];
     form_ingredients := py "salt";
     form_instructions := py "boil it";
     prep_time := 0;
     cook_time := 0;
     form_servings := 4;
     form_difficulty := py "Easy";
     image_file := Some photo;
     now := py "2024-01-17 09:00:00" |}.

(** A configuration with a token and a key that the program never sets. *)
Definition stored_config : list (str * str) :=
  [ (py "hf_token", py "hf_abc"); (py "theme", py "dark") ].

(** * Properties *)

(** ** Strings *)

Lemma lstrip_suffix (s : str) : exists p, s = p ++ lstrip s.
Proof.
  induction s as [|c s [p Hp]]; simpl.
  - exists []. reflexivity.
  - destruct (isspace c).
    + exists (c :: p). simpl. congruence.
    + exists []. reflexivity.
Qed.

Lemma lstrip_incl (s : str) (c : N) : In c (lstrip s) -> In c s.
Proof.
  destruct (lstrip_suffix s) as [p Hp]. intros Hc.
  rewrite Hp. apply in_or_app. right. exact Hc.
Qed.

Lemma strip_incl (s : str) (c : N) : In c (strip s) -> In c s.
Proof.
  unfold strip, rstrip. intros Hc.
  apply in_rev in Hc. apply lstrip_incl in Hc. apply in_rev in Hc.
  apply lstrip_incl in Hc. exact Hc.
Qed.

Lemma replace_char_in (a b c : N) (s : str) :
  In c (replace_char a b s) -> (c = b /\ In a s) \/ (c <> a /\ In c s).
Proof.
  unfold replace_char. rewrite in_map_iff. intros [x [Hx Hin]].
  destruct (N.eqb_spec x a) as [Heq|Hne].
  - left. subst x. split; [congruence | exact Hin].
  - right. subst c. split; [exact Hne | exact Hin].
Qed.


Lemma split_last_no_sep (sep : N) (s : str) : ~ In sep (split_last sep s).
Proof.
  induction s as [|x s IH]; simpl; [tauto|].
  destruct (existsb (N.eqb sep) s) eqn:E; [exact IH|].
  assert (Hs : ~ In sep s).
  { intros Hin. apply not_true_iff_false in E. apply E.
    apply existsb_exists. exists sep. split; [exact Hin | apply N.eqb_refl]. }
  destruct (N.eqb_spec x sep) as [Heq|Hne]; [exact Hs|].
  intros [H|H]; [congruence | exact (Hs H)].
Qed.

(** ** Validator *)

Lemma too_short_trimmed (x : option str) (n : nat) :
  0 < n -> Validator.too_short x n = (Validator.trimmed_length x <? n).
Proof.
  intros Hn. destruct x as [[|c s]|]; simpl; try reflexivity.
  - symmetry. apply Nat.ltb_lt. exact Hn.
  - symmetry. apply Nat.ltb_lt. exact Hn.
Qed.

(** C2: [validate_recipe_data] reports the name exactly when its trimmed
    length is below 3, the ingredients exactly when theirs is below 10, the
    instructions exactly when theirs is below 20, an absent or empty field
    counting as length 0; each rule adds its own message whatever the other
    two do, and the list is empty exactly when the three rules pass. *)
Theorem validate_recipe_data_rules (n i s : option str) :
  let errors := Validator.validate_recipe_data n i s in
  (In Validator.name_error errors <-> Validator.trimmed_length n < 3) /\
  (In Validator.ingredients_error errors <->
     Validator.trimmed_length i < 10) /\
  (In Validator.instructions_error errors <->
     Validator.trimmed_length s < 20) /\
  errors =
    (if Validator.trimmed_length n <? 3 then [Validator.name_error] else [])
    ++ (if Validator.trimmed_length i <? 10
        then [Validator.ingredients_error] else [])
    ++ (if Validator.trimmed_length s <? 20
        then [Validator.instructions_error] else []) /\
  (errors = [] <->
     3 <= Validator.trimmed_length n /\ 10 <= Validator.trimmed_length i /\
     20 <= Validator.trimmed_length s) /\
  Validator.trimmed_length None = 0 /\ Validator.trimmed_length (Some []) = 0.
Proof.
  assert (Hni : Validator.name_error <> Validator.ingredients_error)
    by (vm_compute; discriminate).
  assert (Hns : Validator.name_error <> Validator.instructions_error)
    by (vm_compute; discriminate).
  assert (His : Validator.ingredients_error <> Validator.instructions_error)
    by (vm_compute; discriminate).
  unfold Validator.validate_recipe_data.
  rewrite !too_short_trimmed by lia.
  destruct (Nat.ltb_spec (Validator.trimmed_length n) 3);
    destruct (Nat.ltb_spec (Validator.trimmed_length i) 10);
    destruct (Nat.ltb_spec (Validator.trimmed_length s) 20);
    cbn [app In];
    repeat split; try reflexivity; try lia; try discriminate;
    intuition (try congruence; try lia).
Qed.

(** ** Image names *)

Lemma safe_name_chars (n : str) (c : N) : In c (safe_name n) -> name_char c.
Proof.
  unfold safe_name, name_char. intros Hc.
  apply replace_char_in in Hc. destruct Hc as [[-> _]|[Hne Hc]].
  - right. right. reflexivity.
  - apply strip_incl in Hc. apply filter_In in Hc. destruct Hc as [_ Hk].
    unfold kept in Hk. rewrite !orb_true_iff in Hk.
    destruct Hk as [[[Hk|Hk]|Hk]|Hk].
    + left. exact Hk.
    + apply N.eqb_eq in Hk. contradiction.
    + apply N.eqb_eq in Hk. right. left. exact Hk.
    + apply N.eqb_eq in Hk. right. right. exact Hk.
Qed.

(** An ASCII character that is no letter, digit, hyphen or underscore does
    not occur in a sanitized name. *)
Lemma safe_name_excludes (n : str) (c : N) :
  (c <? 128)%N = true -> ascii_isalnum c = false ->
  c <> ord "-" -> c <> ord "_" -> ~ In c (safe_name n).
Proof.
  intros Hlt Hal Hh Hu Hc. apply safe_name_chars in Hc.
  destruct Hc as [Hc|[Hc|Hc]]; try contradiction.
  unfold isalnum in Hc. rewrite Hlt in Hc. congruence.
Qed.

Lemma hex_digit_is_hex (n : Z) :
  (0 <= n < 16)%Z -> is_hex (MD5.hex_digit n) = true.
Proof.
  intros Hn.
  assert (Hk : exists k, k < 16 /\ n = Z.of_nat k).
  { exists (Z.to_nat n). split; lia. }
  destruct Hk as [k [Hk ->]].
  do 16 (destruct k as [|k]; [reflexivity|]). lia.
Qed.

Lemma hex_byte_is_hex (b : Z) :
  (0 <= b < 256)%Z -> Forall (fun c => is_hex c = true) (MD5.hex_byte b).
Proof.
  intros Hb. unfold MD5.hex_byte.
  repeat constructor; apply hex_digit_is_hex.
  - split; [apply Z.div_pos; lia | apply Z.div_lt_upper_bound; lia].
  - apply Z.mod_pos_bound. lia.
Qed.

Lemma le4_bytes (x : Z) : Forall (fun b => (0 <= b < 256)%Z) (MD5.le4 x).
Proof. unfold MD5.le4. repeat constructor; apply Z.mod_pos_bound; lia. Qed.

Lemma hexdigest_length (msg : list Byte.byte) :
  length (MD5.hexdigest msg) = 32.
Proof.
  unfold MD5.hexdigest.
  destruct (MD5.digest_state msg) as [[[a b] c] d]. reflexivity.
Qed.

Lemma hexdigest_is_hex (msg : list Byte.byte) :
  Forall (fun c => is_hex c = true) (MD5.hexdigest msg).
Proof.
  unfold MD5.hexdigest.
  destruct (MD5.digest_state msg) as [[[a b] c] d].
  unfold MD5.digest_bytes.
  assert (Hb : Forall (fun b => (0 <= b < 256)%Z)
                 (MD5.le4 a ++ MD5.le4 b ++ MD5.le4 c ++ MD5.le4 d)).
  { rewrite !Forall_app. auto using le4_bytes. }
  induction Hb as [|x l Hx _ IH]; cbn [flat_map].
  - constructor.
  - apply Forall_app. split; [apply hex_byte_is_hex; exact Hx | exact IH].
Qed.

Lemma file_hash_length (img : uploaded_file) : length (file_hash img) = 8.
Proof.
  unfold file_hash. rewrite length_firstn, hexdigest_length. reflexivity.
Qed.

Lemma file_hash_is_hex (img : uploaded_file) :
  Forall (fun c => is_hex c = true) (file_hash img).
Proof.
  unfold file_hash. rewrite List.Forall_forall. intros c Hc.
  pose proof (hexdigest_is_hex (getvalue img)) as H.
  rewrite List.Forall_forall in H. apply H.
  rewrite <- (firstn_skipn 8 (MD5.hexdigest (getvalue img))).
  apply in_or_app. left. exact Hc.
Qed.

Lemma file_hash_excludes (img : uploaded_file) (c : N) :
  is_hex c = false -> ~ In c (file_hash img).
Proof.
  intros Hc Hin. pose proof (file_hash_is_hex img) as H.
  rewrite List.Forall_forall in H. apply H in Hin. congruence.
Qed.

(** The stem of a file name: everything before the dot of the extension. *)
Lemma stem_excludes (img : uploaded_file) (n : str) (c : N) :
  (c <? 128)%N = true -> ascii_isalnum c = false ->
  c <> ord "-" -> c <> ord "_" ->
  ~ In c (safe_name n ++ py "_" ++ file_hash img).
Proof.
  intros Hlt Hal Hh Hu Hin.
  apply in_app_or in Hin. destruct Hin as [Hin|Hin].
  - exact (safe_name_excludes n c Hlt Hal Hh Hu Hin).
  - apply in_app_or in Hin. destruct Hin as [[Hin|[]]|Hin].
    + apply Hu. symmetry. exact Hin.
    + revert Hin. apply file_hash_excludes.
      apply not_true_iff_false. intros Hx.
      unfold is_hex in Hx. unfold ascii_isalnum in Hal.
      rewrite !orb_true_iff, !andb_true_iff, !N.leb_le in Hx.
      rewrite !orb_false_iff, !andb_false_iff, !N.leb_gt in Hal. lia.
Qed.

Lemma split_at_separator (sep : N) (s1 s2 e1 e2 : str) :
  ~ In sep s1 -> ~ In sep s2 ->
  s1 ++ sep :: e1 = s2 ++ sep :: e2 -> s1 = s2 /\ e1 = e2.
Proof.
  revert s2. induction s1 as [|x s1 IH]; intros [|y s2] H1 H2 Heq;
    simpl in *.
  - injection Heq as ->. split; reflexivity.
  - injection Heq as <- _. tauto.
  - injection Heq as -> _. tauto.
  - injection Heq as -> Heq. apply IH in Heq; [|tauto|tauto].
    destruct Heq as [-> ->]. split; reflexivity.
Qed.

Lemma filename_parts (img1 img2 : uploaded_file) (n1 n2 : str) :
  filename img1 n1 = filename img2 n2 ->
  safe_name n1 = safe_name n2 /\ file_hash img1 = file_hash img2 /\
  extension img1 = extension img2.
Proof.
  unfold filename. intros Heq.
  change (py ".") with [ord "."] in Heq.
  rewrite !(app_assoc (safe_name _)), !(app_assoc (_ ++ py "_")) in Heq.
  simpl in Heq.
  apply split_at_separator in Heq.
  - destruct Heq as [Hstem Hext].
    rewrite <- !app_assoc in Hstem.
    rewrite !(app_assoc (safe_name _)) in Hstem.
    apply app_inj_2 in Hstem; [|rewrite !file_hash_length; reflexivity].
    destruct Hstem as [Hsafe Hhash].
    apply app_inj_tail in Hsafe. destruct Hsafe as [Hsafe _].
    auto.
  - rewrite <- app_assoc. apply stem_excludes; (reflexivity || discriminate).
  - rewrite <- app_assoc. apply stem_excludes; (reflexivity || discriminate).
Qed.

(** C10: whatever the display name, the name fragment of the file name is
    made of alphanumeric characters, hyphens and underscores only; it holds
    no slash, backslash or dot, and it is empty when the display name has
    none of the characters that are kept. *)
Theorem safe_name_is_path_safe (recipe_name : str) (image_file : uploaded_file) :
  filename image_file recipe_name =
    safe_name recipe_name ++ py "_" ++ file_hash image_file ++ py "."
      ++ extension image_file /\
  Forall name_char (safe_name recipe_name) /\
  ~ In (ord "/") (safe_name recipe_name) /\
  ~ In 92%N (safe_name recipe_name) /\
  ~ In (ord ".") (safe_name recipe_name) /\
  (Forall (fun c => kept c = false) recipe_name -> safe_name recipe_name = []).
Proof.
  split; [reflexivity|].
  split; [apply List.Forall_forall; intros c; apply safe_name_chars|].
  repeat split;
    try (apply safe_name_excludes; (reflexivity || discriminate)).
  intros Hnone. unfold safe_name.
  assert (Hf : List.filter kept recipe_name = []).
  { induction Hnone as [|c l Hc _ IH]; simpl; [reflexivity|].
    rewrite Hc. exact IH. }
  rewrite Hf. reflexivity.
Qed.

(** C4, as the code has it: two file names coincide exactly when the
    sanitized names, the 8-character digests and the extensions coincide;
    so they differ as soon as the sanitized names differ, or the digests
    differ. *)
Theorem filename_equal_iff (img1 img2 : uploaded_file) (n1 n2 : str) :
  (filename img1 n1 = filename img2 n2 <->
   safe_name n1 = safe_name n2 /\ file_hash img1 = file_hash img2 /\
   extension img1 = extension img2) /\
  (safe_name n1 <> safe_name n2 -> filename img1 n1 <> filename img2 n2) /\
  (file_hash img1 <> file_hash img2 -> filename img1 n1 <> filename img2 n2).
Proof.
  assert (Hiff : filename img1 n1 = filename img2 n2 <->
            safe_name n1 = safe_name n2 /\ file_hash img1 = file_hash img2 /\
            extension img1 = extension img2).
  { split; [apply filename_parts|].
    intros [Hs [Hh He]]. unfold filename. rewrite Hs, Hh, He. reflexivity. }
  split; [exact Hiff|].
  split; intros Hne Heq; apply Hiff in Heq; tauto.
Qed.

(** ** Running the operations *)

Lemma world_eta (w : world) :
  {| data_file := data_file w; images_dir := images_dir w;
     load_cache := load_cache w; hf_cache := hf_cache w;
     uploads := uploads w |} = w.
Proof. destruct w. reflexivity. Qed.



(** ** Uploader *)

Lemma for_each_map {A B} (g : A -> B) (body : B -> M unit) (l : list A) :
  for_each (map g l) body = for_each l (fun x => body (g x)).
Proof.
  induction l as [|x l IH]; simpl; [reflexivity|]. rewrite IH. reflexivity.
Qed.

Lemma api_upload_file_accepted (h : hub) (c : upload_call) (w : world) :
  upload_file h (uploads w) c = None ->
  api_upload_file h c w = Ok tt (with_uploads (uploads w ++ [c]) w).
Proof.
  intros Hc. unfold api_upload_file, bind, get, set_uploads, modify.
  rewrite Hc. reflexivity.
Qed.

Lemma api_upload_file_refused (h : hub) (c : upload_call) (w : world)
    (msg : str) :
  upload_file h (uploads w) c = Some msg ->
  api_upload_file h c w
  = Raise (HubError msg) (with_uploads (uploads w ++ [c]) w).
Proof.
  intros Hc. unfold api_upload_file, bind, get, set_uploads, modify.
  rewrite Hc. reflexivity.
Qed.

Lemma with_uploads_twice (l1 l2 : list upload_call) (w : world) :
  with_uploads l2 (with_uploads l1 w) = with_uploads l2 w.
Proof. reflexivity. Qed.

Lemma transmit_accepted (h : hub) (calls : list upload_call) (w : world) :
  accepted h (uploads w) calls ->
  for_each calls (api_upload_file h) w
  = Ok tt (with_uploads (uploads w ++ calls) w).
Proof.
  revert w. induction calls as [|c calls IH]; intros w Hacc.
  - simpl. unfold ret, with_uploads. rewrite app_nil_r, world_eta.
    reflexivity.
  - destruct Hacc as [Hc Hrest]. cbn [for_each]. unfold bind.
    rewrite (api_upload_file_accepted h c w Hc).
    rewrite IH by exact Hrest.
    rewrite with_uploads_twice. cbn [uploads with_uploads].
    rewrite <- app_assoc. reflexivity.
Qed.

Lemma transmit_refused (h : hub) (pre : list upload_call) (c : upload_call)
    (post : list upload_call) (msg : str) (w : world) :
  accepted h (uploads w) pre ->
  upload_file h (uploads w ++ pre) c = Some msg ->
  for_each (pre ++ c :: post) (api_upload_file h) w
  = Raise (HubError msg) (with_uploads (uploads w ++ pre ++ [c]) w).
Proof.
  revert w. induction pre as [|p pre IH]; intros w Hacc Hc.
  - rewrite app_nil_r in Hc. cbn [app for_each]. unfold bind.
    rewrite (api_upload_file_refused h c w msg Hc). reflexivity.
  - destruct Hacc as [Hp Hrest]. cbn [app for_each]. unfold bind.
    rewrite (api_upload_file_accepted h p w Hp).
    rewrite (IH (with_uploads (uploads w ++ [p]) w)).
    + rewrite with_uploads_twice. cbn [uploads with_uploads].
      rewrite <- !app_assoc. reflexivity.
    + exact Hrest.
    + cbn [uploads with_uploads]. rewrite <- app_assoc. exact Hc.
Qed.

(** [initialize_hf_api] returns, and touches nothing but its own cache. *)
Lemma initialize_hf_api_run (h : hub) (tok : str) (w : world) :
  exists r c, initialize_hf_api h tok w = Ok r (with_hf_cache c w).
Proof.
  unfold initialize_hf_api, bind, get, set_hf_cache, modify, ret.
  destruct (hf_cache w !! tok) as [r|].
  - exists r, (hf_cache w). unfold with_hf_cache. rewrite world_eta.
    reflexivity.
  - eexists _, _. reflexivity.
Qed.

Lemma initialize_hf_api_frame (h : hub) (tok : str) (w w1 : world)
    (r : hf_result) :
  initialize_hf_api h tok w = Ok r w1 ->
  data_file w1 = data_file w /\ images_dir w1 = images_dir w /\
  load_cache w1 = load_cache w /\ uploads w1 = uploads w.
Proof.
  destruct (initialize_hf_api_run h tok w) as [r' [c Hrun]].
  rewrite Hrun. intros Heq. injection Heq as _ <-. repeat split.
Qed.

(** The protected block of [upload_to_huggingface] makes the calls of the
    plan, in order. *)
Lemma upload_block (h : hub) (repo tok : str) (inc : bool) (w : world)
    (msg : str) :
  (api_upload_file h
     {| path_or_fileobj := DATA_FILE;
        path_in_repo := py "recipes.csv";
        repo_id := repo;
        repo_type := py "dataset";
        token := tok |};;
   let* dir := get images_dir in
   (if inc then
      match dir with
      | Some d =>
          for_each (glob_images d) (fun img_name =>
            api_upload_file h
              {| path_or_fileobj := IMAGES_DIR ++ py "/" ++ img_name;
                 path_in_repo := py "images/" ++ img_name;
                 repo_id := repo;
                 repo_type := py "dataset";
                 token := tok |})
      | None => ret tt
      end
    else ret tt);;
   ret (true, msg)) w
  = (for_each (upload_plan w repo tok inc) (api_upload_file h);;
     ret (true, msg)) w.
Proof.
  unfold upload_plan. cbn [for_each].
  change {| path_or_fileobj := DATA_FILE; path_in_repo := py "recipes.csv";
            repo_id := repo; repo_type := py "dataset"; token := tok |}
    with (dataset_call repo tok).
  unfold bind.
  destruct (upload_file h (uploads w) (dataset_call repo tok)) as [e|] eqn:E.
  - rewrite (api_upload_file_refused h _ w e E). reflexivity.
  - rewrite (api_upload_file_accepted h _ w E).
    unfold get. cbn [images_dir with_uploads].
    destruct inc; [|reflexivity].
    destruct (images_dir w) as [d|]; [|reflexivity].
    rewrite for_each_map. reflexivity.
Qed.

Lemma upload_to_huggingface_run (h : hub) (repo tok : str) (inc : bool)
    (w w1 : world) (f : csv_file) :
  data_file w = Some f ->
  initialize_hf_api h tok w = Ok Client w1 ->
  upload_to_huggingface h repo tok inc w
  = try_except
      (for_each (upload_plan w repo tok inc) (api_upload_file h);;
       ret (true,
            py "Dataset uploaded successfully to: https://huggingface.co/datasets/"
              ++ repo))
      (fun e => ret (false, py "Upload failed: " ++ str_exn e)) w1.
Proof.
  intros Hf Hinit.
  destruct (initialize_hf_api_frame h tok w w1 Client Hinit)
    as [_ [Hdir _]].
  unfold upload_to_huggingface.
  unfold bind at 1. unfold data_file_exists, get. rewrite Hf. cbn [negb].
  unfold bind at 1. rewrite Hinit.
  unfold try_except. rewrite upload_block.
  unfold upload_plan. rewrite Hdir. reflexivity.
Qed.

Lemma glob_images_spec (d : gmap str (list Byte.byte)) :
  length (glob_images d) = size d /\ NoDup (glob_images d) /\
  forall n : str, In n (glob_images d) <-> is_Some (d !! n).
Proof.
  unfold glob_images. split; [|split].
  - rewrite length_map. apply length_map_to_list.
  - apply NoDup_fst_map_to_list.
  - intros n. rewrite <- list_elem_of_In, list_elem_of_fmap. split.
    + intros [[k v] [-> Hkv]]. apply elem_of_map_to_list in Hkv.
      exists v. exact Hkv.
    + intros [v Hv]. exists (n, v). split; [reflexivity|].
      apply elem_of_map_to_list. exact Hv.
Qed.

(** C5: without a backing file, [upload_to_huggingface] returns the failure
    flag with the message that no local dataset was found, whatever the
    credential, and the state it returns is the one it was given: no call
    was made on the remote side, and none was added to the log. *)
Theorem upload_without_dataset (h : hub) (w : world) (repo tok : str)
    (inc : bool) :
  data_file w = None ->
  exists w',
    upload_to_huggingface h repo tok inc w
    = Ok (false, py "No local dataset found.") w' /\
    w' = w /\ uploads w' = uploads w.
Proof.
  intros Hf. exists w. split; [|split; reflexivity].
  unfold upload_to_huggingface, bind, data_file_exists, get.
  rewrite Hf. reflexivity.
Qed.

(** C6: when the authentication of the client fails, [upload_to_huggingface]
    returns the failure flag and makes no call that sends a file, neither
    the table nor an image; the local files are as they were, and the
    message carries the authentication error. The authentication is what
    the function does once it has found the backing file. *)
Theorem upload_with_rejected_credential (h : hub) (w w1 : world)
    (repo tok : str) (inc : bool) (err : str) :
  initialize_hf_api h tok w = Ok (LoginFailed err) w1 ->
  exists m w',
    upload_to_huggingface h repo tok inc w = Ok (false, m) w' /\
    uploads w' = uploads w /\
    data_file w' = data_file w /\ images_dir w' = images_dir w /\
    (forall f, data_file w = Some f -> m = py "Login failed: " ++ err) /\
    (data_file w = None -> m = py "No local dataset found.").
Proof.
  intros Hinit.
  destruct (initialize_hf_api_frame h tok w w1 _ Hinit)
    as [Hf1 [Hd1 [_ Hu1]]].
  destruct (data_file w) as [f|] eqn:Hf.
  - exists (py "Login failed: " ++ err), w1.
    split.
    + unfold upload_to_huggingface.
      unfold bind at 1. unfold data_file_exists, get. rewrite Hf. cbn [negb].
      unfold bind. rewrite Hinit. reflexivity.
    + repeat split; try assumption; try discriminate.
  - exists (py "No local dataset found."), w.
    split.
    + unfold upload_to_huggingface, bind, data_file_exists, get.
      rewrite Hf. reflexivity.
    + repeat split; try assumption; try discriminate.
Qed.

(** C7: with the backing file present and the client authenticated,
    [upload_to_huggingface] without images makes exactly one call, which
    sends the table; and when every call is accepted it succeeds having
    made exactly the calls of the plan: with images, the table followed by
    one call per file of the image directory, each sent from
    [recipe_images/<name>] to [images/<name>]. *)
Theorem upload_transmits_plan (h : hub) (w w1 : world) (repo tok : str)
    (inc : bool) (f : csv_file) :
  data_file w = Some f ->
  initialize_hf_api h tok w = Ok Client w1 ->
  (inc = false ->
   exists b m w',
     upload_to_huggingface h repo tok inc w = Ok (b, m) w' /\
     uploads w' = uploads w ++ [dataset_call repo tok]) /\
  (accepted h (uploads w) (upload_plan w repo tok inc) ->
   exists w',
     upload_to_huggingface h repo tok inc w
     = Ok (true,
           py "Dataset uploaded successfully to: https://huggingface.co/datasets/"
             ++ repo) w' /\
     uploads w' = uploads w ++ upload_plan w repo tok inc /\
     (inc = false -> upload_plan w repo tok inc = [dataset_call repo tok]) /\
     (forall d, inc = true -> images_dir w = Some d ->
        upload_plan w repo tok inc
        = dataset_call repo tok :: map (image_call repo tok) (glob_images d) /\
        length (upload_plan w repo tok inc) = 1 + size d /\
        NoDup (glob_images d) /\
        (forall n : str, In n (glob_images d) <-> is_Some (d !! n)) /\
        (forall n : str,
           path_in_repo (image_call repo tok n) = py "images/" ++ n /\
           path_or_fileobj (image_call repo tok n)
           = py "recipe_images/" ++ n))).
Proof.
  intros Hf Hinit.
  destruct (initialize_hf_api_frame h tok w w1 _ Hinit)
    as [_ [_ [_ Hu1]]].
  pose proof (upload_to_huggingface_run h repo tok inc w w1 f Hf Hinit)
    as Hrun.
  split.
  - intros ->. rewrite Hrun. unfold try_except, bind.
    change (upload_plan w repo tok false) with ([] ++ [dataset_call repo tok]).
    destruct (upload_file h (uploads w1) (dataset_call repo tok))
      as [err|] eqn:E.
    + rewrite (transmit_refused h [] _ [] err w1 I)
        by (rewrite app_nil_r; exact E).
      eexists _, _, _. split; [reflexivity|].
      cbn [uploads with_uploads app]. rewrite Hu1. reflexivity.
    + rewrite (transmit_accepted h _ w1) by (split; [exact E | exact I]).
      eexists _, _, _. split; [reflexivity|].
      cbn [uploads with_uploads app]. rewrite Hu1. reflexivity.
  - intros Hacc.
    exists (with_uploads (uploads w ++ upload_plan w repo tok inc) w1).
    split.
    + rewrite Hrun. unfold try_except, bind.
      rewrite transmit_accepted by (rewrite Hu1; exact Hacc).
      rewrite Hu1. reflexivity.
    + split; [reflexivity|]. split.
      * intros ->. reflexivity.
      * intros d -> Hd. destruct (glob_images_spec d) as [Hlen [Hnd Hin]].
        unfold upload_plan. rewrite Hd. cbn [length].
        rewrite length_map, Hlen. repeat split; auto; apply Hin.
Qed.

(** C8: when a call of the plan is refused after the calls before it were
    accepted, [upload_to_huggingface] returns the failure flag with the
    text of the error, has made the calls up to the refused one and none
    after it, and leaves the backing file, the image directory and the
    plan of a later upload as they were. *)
Theorem upload_stops_at_first_error (h : hub) (w w1 : world) (repo tok : str)
    (inc : bool) (f : csv_file) (pre post : list upload_call)
    (c : upload_call) (err : str) :
  data_file w = Some f ->
  initialize_hf_api h tok w = Ok Client w1 ->
  upload_plan w repo tok inc = pre ++ c :: post ->
  accepted h (uploads w) pre ->
  upload_file h (uploads w ++ pre) c = Some err ->
  exists w',
    upload_to_huggingface h repo tok inc w
    = Ok (false, py "Upload failed: " ++ err) w' /\
    uploads w' = uploads w ++ pre ++ [c] /\
    data_file w' = data_file w /\ images_dir w' = images_dir w /\
    load_cache w' = load_cache w /\
    upload_plan w' repo tok inc = upload_plan w repo tok inc.
Proof.
  intros Hf Hinit Hplan Hacc Herr.
  destruct (initialize_hf_api_frame h tok w w1 _ Hinit)
    as [Hf1 [Hd1 [Hc1 Hu1]]].
  exists (with_uploads (uploads w ++ pre ++ [c]) w1).
  split.
  - rewrite (upload_to_huggingface_run h repo tok inc w w1 f Hf Hinit).
    unfold try_except, bind. rewrite Hplan.
    rewrite (transmit_refused h pre c post err w1)
      by (rewrite Hu1; assumption).
    rewrite Hu1. reflexivity.
  - repeat split; try assumption.
    unfold upload_plan. cbn [images_dir with_uploads]. rewrite Hd1.
    reflexivity.
Qed.

(** ** Decimal integers *)

Lemma str_uint_uint_str (u : uint) : str_uint (uint_str u) = Some u.
Proof. induction u; simpl; try rewrite IHu; reflexivity. Qed.

Lemma parse_int_uint_str (u : uint) :
  parse_int (uint_str u) = Some (Z.of_int (Pos u)).
Proof.
  pose proof (str_uint_uint_str u) as H.
  destruct u; unfold parse_int; cbn [uint_str] in *; rewrite H; reflexivity.
Qed.

Lemma parse_render_int (z : Z) : parse_int (render_int z) = Some z.
Proof.
  transitivity (Some (Z.of_int (Z.to_int z)));
    [|f_equal; apply DecimalZ.of_to].
  unfold render_int. destruct (Z.to_int z) as [u|u].
  - apply parse_int_uint_str.
  - unfold parse_int. cbn [ord N_of_ascii N_of_digits].
    rewrite str_uint_uint_str. reflexivity.
Qed.

Lemma int_token_render_int (z : Z) :
  int64 z = true -> int_token (render_int z) = Some z.
Proof.
  intros Hz. unfold int_token. rewrite parse_render_int, Hz.
  rewrite bool_decide_eq_true_2 by reflexivity. reflexivity.
Qed.

Lemma int_token_canonical (t : str) (z : Z) :
  int_token t = Some z -> render_int z = t /\ int64 z = true.
Proof.
  unfold int_token. destruct (parse_int t) as [z'|]; [|discriminate].
  destruct (int64 z') eqn:E; [|discriminate]. cbn [andb].
  destruct (bool_decide (render_int z' = t)) eqn:B; [|discriminate].
  intros Heq. injection Heq as <-.
  apply bool_decide_eq_true_1 in B. split; assumption.
Qed.

(** ** Reading the table *)

Lemma na_not_int (t : str) : is_na t = true -> int_token t = None.
Proof.
  unfold is_na. intros H. apply bool_decide_eq_true_1 in H.
  apply list_elem_of_In in H.
  assert (Hall : Forall (fun t => int_token t = None) na_values).
  { repeat constructor. }
  rewrite List.Forall_forall in Hall. apply Hall. exact H.
Qed.

Lemma classify_na (t : str) : is_na t = true -> classify t = TNa.
Proof. intros H. unfold classify. rewrite H. reflexivity. Qed.

Lemma classify_render_int (z : Z) :
  int64 z = true -> classify (render_int z) = TInt z.
Proof.
  intros Hz. unfold classify.
  destruct (is_na (render_int z)) eqn:E.
  - apply na_not_int in E. rewrite int_token_render_int in E by exact Hz.
    discriminate.
  - rewrite int_token_render_int by exact Hz. reflexivity.
Qed.

Lemma is_text_classify (t : str) : is_text t = true -> classify t = TText.
Proof. unfold is_text. destruct (classify t); congruence. Qed.

Lemma is_int_classify (t : str) :
  is_int t = true -> exists z, classify t = TInt z /\ render_int z = t /\
                                int64 z = true.
Proof.
  unfold is_int. destruct (classify t) as [|z| |] eqn:E; try discriminate.
  intros _. exists z. split; [reflexivity|].
  unfold classify in E. destruct (is_na t); [discriminate|].
  destruct (int_token t) as [z'|] eqn:T.
  - injection E as ->. apply int_token_canonical. exact T.
  - destruct (lib_like t || negb (storable t)); discriminate.
Qed.

Lemma is_text_storable (t : str) : is_text t = true -> storable t = true.
Proof.
  unfold is_text, classify. destruct (is_na t); [discriminate|].
  destruct (int_token t); [discriminate|].
  destruct (lib_like t); [discriminate|].
  destruct (storable t); [reflexivity | discriminate].
Qed.

Lemma uint_str_digits (u : uint) (c : N) :
  In c (uint_str u) -> (48 <= c <= 57)%N.
Proof.
  induction u; cbn [uint_str In]; intros H;
    try (destruct H as [<-|H]; [lia | exact (IHu H)]).
  destruct H.
Qed.

Lemma render_int_storable (z : Z) : storable (render_int z) = true.
Proof.
  unfold storable. apply negb_true_iff, not_true_iff_false. intros H.
  apply existsb_exists in H. destruct H as [c [Hin Hc]].
  assert (Hrange : (45 <= c <= 57)%N).
  { unfold render_int in Hin. destruct (Z.to_int z) as [u|u].
    - apply uint_str_digits in Hin. lia.
    - destruct Hin as [<-|Hin]; [cbn; lia|].
      apply uint_str_digits in Hin. lia. }
  unfold unprotected_char in Hc.
  rewrite !orb_true_iff, andb_true_iff, !N.eqb_eq, !N.leb_le, N.ltb_lt in Hc.
  lia.
Qed.

Lemma col_dtype_int (col : list str) :
  col <> [] -> forallb is_int col = true -> col_dtype col = DInt.
Proof.
  intros Hne Hall. destruct col; [congruence|].
  unfold col_dtype. rewrite Hall. reflexivity.
Qed.

Lemma col_dtype_text (col : list str) (t : str) :
  In t col -> is_text t = true -> col_dtype col = DObject.
Proof.
  intros Hin Ht. destruct col as [|t0 col']; [destruct Hin|].
  unfold col_dtype.
  assert (Hint : forallb is_int (t0 :: col') = false).
  { apply not_true_iff_false. intros Hall.
    rewrite forallb_forall in Hall. specialize (Hall t Hin).
    unfold is_int in Hall. rewrite (is_text_classify t Ht) in Hall.
    discriminate. }
  assert (Htext : existsb is_text (t0 :: col') = true).
  { apply existsb_exists. exists t. split; assumption. }
  rewrite Hint, Htext. reflexivity.
Qed.

(** A field that is plain text is read as that text, whatever else the
    column holds. *)
Lemma conv_text (col : list str) (t : str) :
  In t col -> is_text t = true -> conv (col_dtype col) t = VStr t.
Proof.
  intros Hin Ht. rewrite (col_dtype_text col t Hin Ht).
  unfold conv. rewrite (is_text_classify t Ht). reflexivity.
Qed.

(** A missing-value marker is read as the missing value in any column. *)
Lemma conv_na (d : dtype) (t : str) : is_na t = true -> conv d t = VNaN.
Proof. intros H. unfold conv. rewrite (classify_na t H). reflexivity. Qed.

(** An integer is read as that integer in a column of integers. *)
Lemma conv_int (col : list str) (z : Z) :
  In (render_int z) col -> forallb is_int col = true -> int64 z = true ->
  conv (col_dtype col) (render_int z) = VInt z.
Proof.
  intros Hin Hall Hz. rewrite col_dtype_int; [|intros ->; destruct Hin|exact Hall].
  unfold conv. rewrite (classify_render_int z Hz). reflexivity.
Qed.

Lemma render_normalise (v : cell) : render (normalise v) = render v.
Proof. destruct v as [[|c s]|z| | |col tok]; reflexivity. Qed.

(** One field of a plain record, whatever the column. *)
Ltac plain_field Hall :=
  let r' := fresh "r'" in
  let Hin := fresh "Hin" in
  let Hp := fresh "Hp" in
  intros r' Hin;
  pose proof (proj1 (List.Forall_forall _ _) Hall r' Hin) as Hp;
  unfold plain_record, row_all, row_zip, kinds in Hp;
  cbn [name language region ingredients instructions prep_time_minutes
       cook_time_minutes total_time_minutes servings difficulty
       image_filename date_added] in Hp;
  tauto.

Lemma is_int_render (v : cell) : int_cell v -> is_int (render v) = true.
Proof.
  destruct v as [s|z| | |col tok]; simpl; try contradiction.
  intros Hz. unfold is_int. rewrite (classify_render_int z Hz). reflexivity.
Qed.

Lemma int_column (proj : row cell -> cell) (rs : list (row cell)) :
  (forall r', In r' rs -> int_cell (proj r')) ->
  forallb is_int (map (fun r' => render (proj r')) rs) = true.
Proof.
  intros Hk. apply forallb_forall. intros t Ht.
  apply in_map_iff in Ht. destruct Ht as [r' [<- Hin]].
  apply is_int_render. apply Hk. exact Hin.
Qed.

Lemma conv_text_cell (proj : row cell -> cell) (rs : list (row cell))
    (r : row cell) :
  (forall r', In r' rs -> text_cell (proj r')) -> In r rs ->
  conv (col_dtype (map (fun r' => render (proj r')) rs)) (render (proj r))
  = normalise (proj r).
Proof.
  intros Hk Hin.
  assert (Hcol : In (render (proj r))
                   (map (fun r' => render (proj r')) rs)).
  { apply in_map_iff. exists r. split; [reflexivity | exact Hin]. }
  specialize (Hk r Hin).
  destruct (proj r) as [s|z| | |col tok]; simpl in Hk; try contradiction.
  - destruct Hk as [->|Ht]; [apply conv_na; reflexivity|].
    cbn [render] in *. rewrite conv_text by assumption.
    destruct s; [discriminate Ht | reflexivity].
  - apply conv_na. reflexivity.
Qed.

Lemma conv_int_cell (proj : row cell -> cell) (rs : list (row cell))
    (r : row cell) :
  (forall r', In r' rs -> int_cell (proj r')) -> In r rs ->
  conv (col_dtype (map (fun r' => render (proj r')) rs)) (render (proj r))
  = normalise (proj r).
Proof.
  intros Hk Hin.
  assert (Hcol : In (render (proj r))
                   (map (fun r' => render (proj r')) rs)).
  { apply in_map_iff. exists r. split; [reflexivity | exact Hin]. }
  pose proof (int_column proj rs Hk) as Hall.
  specialize (Hk r Hin).
  destruct (proj r) as [s|z| | |col tok]; simpl in Hk; try contradiction.
  cbn [render normalise] in *. apply conv_int; assumption.
Qed.

(** Reading back a table of plain records gives the records, an empty text
    or [None] having become the missing value. *)
Lemma read_table_plain (rs : list (row cell)) :
  Forall plain_record rs ->
  rows (read_table (map (row_map render) rs)) = map (row_map normalise) rs.
Proof.
  intros Hall. unfold read_table. cbn [rows]. rewrite map_map.
  apply map_ext_in. intros r Hr.
  unfold row_zip, row_map, columns.
  cbn [name language region ingredients instructions prep_time_minutes
       cook_time_minutes total_time_minutes servings difficulty
       image_filename date_added].
  rewrite !map_map.
  cbn [row_map name language region ingredients instructions
       prep_time_minutes cook_time_minutes total_time_minutes servings
       difficulty image_filename date_added].
  f_equal;
    first [ apply conv_text_cell; [plain_field Hall | exact Hr]
          | apply conv_int_cell; [plain_field Hall | exact Hr] ].
Qed.

(** Reasoning key by key. *)
Ltac each_field Hf :=
  cbn [all_fields In] in Hf;
  repeat (destruct Hf as [<-|Hf]; [reflexivity|]); destruct Hf.

Lemma field_zip {A B C} (f : field) (g : A -> B -> C) (a : row A)
    (b : row B) :
  In f all_fields -> f C (row_zip g a b) = g (f A a) (f B b).
Proof. intros Hf. each_field Hf. Qed.

Lemma field_map {A B} (f : field) (g : A -> B) (a : row A) :
  In f all_fields -> f B (row_map g a) = g (f A a).
Proof. intros Hf. each_field Hf. Qed.

Lemma field_columns {A} (f : field) (rs : list (row A)) :
  In f all_fields -> f (list A) (columns rs) = map (f A) rs.
Proof. intros Hf. each_field Hf. Qed.

Lemma row_all_fields (P : row Prop) :
  (forall f : field, In f all_fields -> f Prop P) -> row_all P.
Proof.
  intros H. unfold row_all.
  repeat split;
    [ apply (H (@name)) | apply (H (@language)) | apply (H (@region))
    | apply (H (@ingredients)) | apply (H (@instructions))
    | apply (H (@prep_time_minutes)) | apply (H (@cook_time_minutes))
    | apply (H (@total_time_minutes)) | apply (H (@servings))
    | apply (H (@difficulty)) | apply (H (@image_filename))
    | apply (H (@date_added)) ];
    cbn [all_fields In]; tauto.
Qed.

Ltac project f Hf :=
  repeat first [ rewrite (field_zip f _ _ _ Hf)
               | rewrite (field_map f _ _ Hf)
               | rewrite (field_columns f _ Hf) ].

(** ** Recipe repository *)

(** What [save_recipe_locally] does, by the state of the backing file. *)
Lemma save_recipe_locally_run (r : row cell) (w : world) :
  save_recipe_locally r w =
  match data_file w with
  | Some (Unparsable err) => Raise (ParserError err) w
  | _ => (to_csv (stacked w r);; load_existing_data_clear) w
  end.
Proof.
  unfold save_recipe_locally, stacked, data_file_exists, read_csv.
  unfold bind at 1 2 3 4 5, get. cbv beta.
  destruct (data_file w) as [[lines|err]|] eqn:E; cbv beta iota;
    rewrite ?E; reflexivity.
Qed.

(** Writing field texts that the file holds as written. *)
Lemma to_csv_storable (df : frame) (w : world) :
  forallb storable_line (map (row_map render) (rows df)) = true ->
  (to_csv df;; load_existing_data_clear) w
  = Ok tt (with_load_cache None
             (with_data_file
                (Some (Table (map (row_map render) (rows df)))) w)).
Proof.
  intros H. unfold to_csv, bind. rewrite H. reflexivity.
Qed.

Lemma field_kind (f : field) (r : row cell) :
  In f all_fields -> plain_record r -> text_cell (f cell r) \/ int_cell (f cell r).
Proof.
  intros Hf Hr.
  unfold plain_record, row_all, row_zip, kinds in Hr.
  cbn [name language region ingredients instructions prep_time_minutes
       cook_time_minutes total_time_minutes servings difficulty
       image_filename date_added] in Hr.
  cbn [all_fields In] in Hf.
  repeat (destruct Hf as [<-|Hf]; [tauto|]). destruct Hf.
Qed.

Lemma storable_render (v : cell) :
  text_cell v \/ int_cell v -> storable (render v) = true.
Proof.
  destruct v as [s|z| | |col tok]; cbn [text_cell int_cell render];
    try tauto; try reflexivity.
  - intros [[->|Ht]|[]]; [reflexivity | apply is_text_storable; exact Ht].
  - intros _. apply render_int_storable.
Qed.

(** What [load_existing_data] does, by the state of its cache. *)
Lemma load_existing_data_run (w : world) :
  load_existing_data w =
  match load_cache w with
  | Some df => Ok df w
  | None =>
      match data_file w with
      | None => Ok DataFrame_empty (with_load_cache (Some DataFrame_empty) w)
      | Some (Table lines) =>
          Ok (read_table lines)
             (with_load_cache (Some (read_table lines)) w)
      | Some (Unparsable err) => Raise (ParserError err) w
      end
  end.
Proof.
  unfold load_existing_data, data_file_exists, read_csv, bind, get.
  cbv beta.
  destruct (load_cache w) as [df|]; [reflexivity|].
  destruct (data_file w) as [[lines|err]|] eqn:E; cbv beta iota;
    rewrite ?E; reflexivity.
Qed.

Lemma coerce_text (d : dtype) (v : cell) : text_cell v -> coerce d v = v.
Proof. destruct d, v; simpl; tauto. Qed.

Lemma coerce_int_column (col : list str) (v : cell) :
  forallb is_int col = true -> coerce (col_dtype col) v = v.
Proof.
  intros Hall. destruct col as [|t col]; [reflexivity|].
  rewrite col_dtype_int by (exact Hall || discriminate). reflexivity.
Qed.

Lemma coerce_by_plain (k : cell -> Prop) (v x : cell) :
  k = text_cell \/ k = int_cell -> k v -> coerce (cell_dtype v) x = x.
Proof.
  intros [-> | ->]; destruct v; simpl; try tauto; intros _; reflexivity.
Qed.

Ltac one_field r :=
  unfold plain_record, row_all, row_zip, kinds in *;
  cbn [name language region ingredients instructions prep_time_minutes
       cook_time_minutes total_time_minutes servings difficulty
       image_filename date_added] in *;
  tauto.

(** Stacking a plain record under a frame leaves the cells of the frame as
    they are. *)
Lemma coerce_by_new (r x : row cell) :
  plain_record r -> row_zip coerce (dtypes (DataFrame r)) x = x.
Proof.
  intros Hr. destruct x. unfold DataFrame. cbn [dtypes].
  unfold row_zip, row_map.
  cbn [name language region ingredients instructions prep_time_minutes
       cook_time_minutes total_time_minutes servings difficulty
       image_filename date_added].
  f_equal;
    first [ apply (coerce_by_plain text_cell); [left; reflexivity | one_field r]
          | apply (coerce_by_plain int_cell); [right; reflexivity | one_field r] ].
Qed.

(** Stacking a plain record under a table of plain records leaves its
    cells as they are. *)
Lemma coerce_by_old (rs : list (row cell)) (r : row cell) :
  Forall plain_record rs -> plain_record r ->
  row_zip coerce (dtypes (read_table (map (row_map render) rs))) r = r.
Proof.
  intros Hall Hr. destruct r. unfold read_table. cbn [dtypes].
  unfold row_zip, row_map, columns.
  cbn [name language region ingredients instructions prep_time_minutes
       cook_time_minutes total_time_minutes servings difficulty
       image_filename date_added].
  rewrite !map_map.
  cbn [name language region ingredients instructions prep_time_minutes
       cook_time_minutes total_time_minutes servings difficulty
       image_filename date_added].
  f_equal;
    first [ apply coerce_text; one_field r
          | apply coerce_int_column;
            match goal with
            | |- forallb is_int (map (fun x => render (?p x)) _) = true =>
                apply (int_column p)
            end; plain_field Hall ].
Qed.

Lemma row_map_render_normalise (x : row cell) :
  row_map render (row_map normalise x) = row_map render x.
Proof.
  destruct x. unfold row_map.
  cbn [name language region ingredients instructions prep_time_minutes
       cook_time_minutes total_time_minutes servings difficulty
       image_filename date_added].
  rewrite !render_normalise. reflexivity.
Qed.

Lemma concat_plain (rs : list (row cell)) (r : row cell) :
  Forall plain_record rs -> plain_record r ->
  map (row_map render)
    (rows (concat (read_table (map (row_map render) rs)) (DataFrame r)))
  = map (row_map render) (rs ++ [r]).
Proof.
  intros Hall Hr. unfold concat. cbn [rows].
  rewrite (read_table_plain rs Hall).
  rewrite (map_ext _ (fun x => x) (fun x => coerce_by_new r x Hr)).
  rewrite map_id.
  change (rows (DataFrame r)) with [r]. cbn [map].
  rewrite (coerce_by_old rs r Hall Hr).
  rewrite !map_app, map_map.
  rewrite (map_ext _ _ row_map_render_normalise). reflexivity.
Qed.

Lemma storable_plain_lines (rs : list (row cell)) :
  Forall plain_record rs ->
  forallb storable_line (map (row_map render) rs) = true.
Proof.
  intros Hall. apply forallb_forall. intros l Hl.
  apply in_map_iff in Hl. destruct Hl as [r [<- Hr]].
  rewrite List.Forall_forall in Hall. specialize (Hall r Hr).
  unfold storable_line. apply forallb_forall. intros f Hf.
  rewrite (field_map f _ _ Hf). apply storable_render.
  apply field_kind; assumption.
Qed.

Lemma written_lines_plain (done : list (row cell)) (r : row cell)
    (w : world) :
  Forall plain_record done -> plain_record r ->
  data_file w = file_of done ->
  written_lines w r = map (row_map render) (done ++ [r]).
Proof.
  intros Hdone Hr Hfile. unfold written_lines, stacked. rewrite Hfile.
  destruct done as [|x done'].
  - reflexivity.
  - cbn [file_of]. apply concat_plain; assumption.
Qed.

Lemma save_plain_record (done : list (row cell)) (r : row cell) (w : world) :
  Forall plain_record done -> plain_record r ->
  data_file w = file_of done ->
  save_recipe_locally r w
  = Ok tt (with_load_cache None (with_data_file (file_of (done ++ [r])) w)).
Proof.
  intros Hdone Hr Hfile.
  pose proof (written_lines_plain done r w Hdone Hr Hfile) as Hlines.
  unfold written_lines in Hlines.
  assert (Hall : Forall plain_record (done ++ [r])).
  { apply Forall_app. split; [exact Hdone|].
    constructor; [exact Hr | constructor]. }
  rewrite save_recipe_locally_run.
  assert (Hrun : (to_csv (stacked w r);; load_existing_data_clear) w
                 = Ok tt (with_load_cache None
                            (with_data_file (file_of (done ++ [r])) w))).
  { rewrite to_csv_storable; rewrite Hlines.
    - destruct done; reflexivity.
    - apply storable_plain_lines. exact Hall. }
  rewrite Hfile. destruct done as [|x done']; exact Hrun.
Qed.

Lemma append_plain_records (rs done : list (row cell)) (w : world) :
  Forall plain_record done -> Forall plain_record rs ->
  data_file w = file_of done ->
  exists w',
    for_each rs save_recipe_locally w = Ok tt w' /\
    data_file w' = file_of (done ++ rs) /\
    (rs <> [] -> load_cache w' = None) /\ (rs = [] -> w' = w) /\
    images_dir w' = images_dir w /\ uploads w' = uploads w.
Proof.
  revert done w. induction rs as [|r rs IH]; intros done w Hdone Hrs Hfile.
  - exists w. rewrite app_nil_r. repeat split; try assumption. congruence.
  - apply Forall_cons in Hrs. destruct Hrs as [Hr Hrs].
    cbn [for_each]. unfold bind.
    rewrite (save_plain_record done r w Hdone Hr Hfile).
    destruct (IH (done ++ [r])
                (with_load_cache None
                   (with_data_file (file_of (done ++ [r])) w)))
      as [w' [Hrun [Hf [Hc [Hsame [Hi Hu]]]]]].
    + apply Forall_app. split; [exact Hdone|].
      constructor; [exact Hr | constructor].
    + exact Hrs.
    + reflexivity.
    + exists w'. rewrite <- app_assoc in Hf.
      split; [exact Hrun|]. split; [exact Hf|].
      split; [|split; [discriminate | split; assumption]].
      intros _. destruct rs as [|r' rs'].
      * rewrite (Hsame eq_refl). reflexivity.
      * apply Hc. discriminate.
Qed.

(** C1, as the code has it: records appended to a missing backing file,
    whose texts the file holds as written and the reader keeps as text and
    whose integers fit an [int64] column, are all appended, and
    [load_existing_data] then returns one row per record, in the order of
    the appends, with every integer and every non-empty text as it was
    appended, [total_time_minutes] being the sum of the two times of the
    form, and with the missing value where the record had an empty text or
    [None].  (With no record at all, what is loaded is what was cached, so
    nothing must be.) *)
Theorem append_then_load (w0 : world) (subs : list (form * option str)) :
  let records := map (fun s => recipe_data (fst s) (snd s)) subs in
  data_file w0 = None -> (subs = [] -> load_cache w0 = None) ->
  Forall plain_record records ->
  exists w1 df w2,
    for_each records save_recipe_locally w0 = Ok tt w1 /\
    load_existing_data w1 = Ok df w2 /\
    rows df = map (row_map normalise) records /\
    map total_time_minutes (rows df)
    = map (fun s => VInt (prep_time (fst s) + cook_time (fst s))) subs /\
    (forall v, v <> VStr [] -> v <> VNone -> normalise v = v) /\
    normalise (VStr []) = VNaN /\ normalise VNone = VNaN.
Proof.
  intros records Hfile Hcache Hplain.
  destruct (append_plain_records records [] w0) as
    [w1 [Hrun [Hf [Hc [Hsame _]]]]];
    [constructor | exact Hplain | exact Hfile |].
  cbn [app] in Hf.
  assert (Hc1 : load_cache w1 = None).
  { destruct subs as [|s0 subs'].
    - rewrite (Hsame eq_refl). apply Hcache. reflexivity.
    - apply Hc. discriminate. }
  assert (Hload : exists df w2, load_existing_data w1 = Ok df w2 /\
                    rows df = map (row_map normalise) records).
  { rewrite load_existing_data_run, Hc1, Hf.
    destruct records as [|r rs] eqn:E.
    - eexists _, _. split; reflexivity.
    - cbn [file_of]. eexists _, _. split; [reflexivity|].
      rewrite <- E. apply read_table_plain. rewrite E. exact Hplain. }
  destruct Hload as [df [w2 [Hload Hrows]]].
  exists w1, df, w2.
  split; [exact Hrun|]. split; [exact Hload|]. split; [exact Hrows|].
  split.
  - rewrite Hrows. unfold records. rewrite !map_map. reflexivity.
  - split; [|split; reflexivity].
    intros v H1 H2. destruct v as [[|c s]|z| | |col tok];
      try reflexivity; congruence.
Qed.

(** Writing back a column of integers that was read gives its field texts
    again. *)
Lemma rewrite_int_column (col : list str) (t : str) :
  forallb is_int col = true -> In t col ->
  render (conv (col_dtype col) t) = t.
Proof.
  intros Hall Hin.
  rewrite col_dtype_int; [|intros ->; destruct Hin|exact Hall].
  rewrite forallb_forall in Hall.
  destruct (is_int_classify t (Hall t Hin)) as [z [Hc [Hr _]]].
  unfold conv. rewrite Hc. exact Hr.
Qed.

(** One cell of a record that is stacked under the table [lines] and
    written, as the next read returns it. *)
Lemma reads_back_append (proj : row str -> str) (lines : list (row str))
    (v : cell) :
  reads_back (map proj lines) v
    (conv
       (col_dtype
          (map (fun x =>
                  render (coerce (cell_dtype v)
                            (conv (col_dtype (map proj lines)) (proj x))))
             lines
           ++ [render (coerce (col_dtype (map proj lines)) v)]))
       (render (coerce (col_dtype (map proj lines)) v))).
Proof.
  destruct v as [s|z| | |col tok]; cbn [reads_back]; try exact I.
  - assert (Hs : coerce (col_dtype (map proj lines)) (VStr s) = VStr s)
      by (destruct (col_dtype (map proj lines)); reflexivity).
    rewrite Hs. cbn [render]. split.
    + apply conv_na.
    + intros Ht. apply conv_text; [|exact Ht].
      apply in_or_app. right. left. reflexivity.
  - intros Hz Hall.
    rewrite (coerce_int_column _ (VInt z) Hall). cbn [render cell_dtype].
    apply conv_int; [apply in_or_app; right; left; reflexivity| |exact Hz].
    rewrite forallb_app. apply andb_true_iff. split.
    + apply forallb_forall. intros t Ht.
      apply in_map_iff in Ht. destruct Ht as [x [<- Hx]].
      change (coerce DInt ?y) with y.
      assert (Hin : In (proj x) (map proj lines)) by (apply in_map; exact Hx).
      rewrite (rewrite_int_column _ _ Hall Hin).
      rewrite forallb_forall in Hall. apply Hall. exact Hin.
    + cbn [forallb]. unfold is_int.
      rewrite (classify_render_int z Hz). reflexivity.
  - assert (Hs : coerce (col_dtype (map proj lines)) VNone = VNone)
      by (destruct (col_dtype (map proj lines)); reflexivity).
    rewrite Hs. apply conv_na. reflexivity.
Qed.


(** The column of an old table after it has been read, stacked over a new
    record and written again. *)
Lemma rewritten_column (f : field) (lines : list (row str)) (r : row cell) :
  In f all_fields ->
  map (f str)
    (map (row_map render)
       (map (row_zip coerce (row_map cell_dtype r))
          (map (row_zip conv (row_map col_dtype (columns lines))) lines)))
  = map (fun x =>
           render (coerce (cell_dtype (f cell r))
                     (conv (col_dtype (map (f str) lines)) (f str x))))
      lines.
Proof.
  intros Hf. rewrite !map_map. apply map_ext. intros x.
  project f Hf. reflexivity.
Qed.

(** The last row read from the lines written for a record stacked under
    an old table. *)
Lemma stacked_reads_back (old_lines : list (row str)) (r : row cell) :
  let lines :=
    map (row_map render)
      (rows (concat (read_table old_lines) (DataFrame r))) in
  exists old new_line,
    lines = old ++ [new_line] /\ length old = length old_lines /\
    row_all
      (row_zip (fun ov v' => reads_back (fst ov) (snd ov) v')
         (row_zip pair (columns old_lines) r)
         (row_zip conv (dtypes (read_table lines)) new_line)).
Proof.
  intros lines. unfold lines, concat, read_table, DataFrame.
  cbn [rows dtypes]. rewrite map_app. cbn [map].
  eexists _, _. split; [reflexivity|].
  split; [rewrite !length_map; reflexivity|].
  apply row_all_fields. intros f Hf.
  project f Hf. cbn [fst snd].
  rewrite map_app, (rewritten_column f old_lines r Hf).
  cbn [map]. project f Hf.
  apply reads_back_append.
Qed.

Lemma single_reads_back (r : row cell) :
  row_all
    (row_zip (fun ov v' => reads_back (fst ov) (snd ov) v')
       (row_zip pair (columns []) r)
       (row_zip conv (dtypes (read_table [row_map render r]))
          (row_map render r))).
Proof.
  apply row_all_fields. intros f Hf.
  unfold read_table. cbn [dtypes].
  project f Hf. cbn [fst snd map]. project f Hf.
  exact (reads_back_append (fun _ => []) [] (f cell r)).
Qed.

(** The lines written for a record: those of the old table, then one for
    the record, which reads back as [reads_back] says. *)
Lemma written_lines_spec (w : world) (r : row cell) :
  exists old new_line,
    written_lines w r = old ++ [new_line] /\
    length old = length (lines_of w) /\
    row_all
      (row_zip (fun ov v' => reads_back (fst ov) (snd ov) v')
         (row_zip pair (columns (lines_of w)) r)
         (row_zip conv (dtypes (read_table (written_lines w r))) new_line)).
Proof.
  unfold written_lines, stacked, lines_of.
  destruct (data_file w) as [[lines|err]|].
  - apply stacked_reads_back.
  - exists [], (row_map render r).
    split; [reflexivity|]. split; [reflexivity|]. apply single_reads_back.
  - exists [], (row_map render r).
    split; [reflexivity|]. split; [reflexivity|]. apply single_reads_back.
Qed.


(** Input that [validate_recipe_data] rejects is not persisted. *)
Lemma submit_rejected (f : form) (w : world) (e : str) (errors : list str) :
  Validator.validate_recipe_data (Some (recipe_name f))
    (Some (form_ingredients f)) (Some (form_instructions f)) = e :: errors ->
  submit f w = Ok (Rejected (e :: errors)) w.
Proof. intros H. unfold submit. rewrite H. reflexivity. Qed.

(** ** Uploader, whatever the remote side does *)

Lemma accepted_or_refused (h : hub) (calls log : list upload_call) :
  accepted h log calls \/
  exists pre c post err,
    calls = pre ++ c :: post /\ accepted h log pre /\
    upload_file h (log ++ pre) c = Some err.
Proof.
  revert log. induction calls as [|c calls IH]; intros log.
  - left. exact I.
  - destruct (upload_file h log c) as [err|] eqn:E.
    + right. exists [], c, calls, err.
      rewrite app_nil_r. repeat split. exact E.
    + destruct (IH (log ++ [c])) as [Hacc|[pre [c' [post [err [Hc [Hp He]]]]]]].
      * left. split; assumption.
      * right. exists (c :: pre), c', post, err.
        rewrite <- app_assoc in He. subst calls.
        repeat split; assumption.
Qed.

Lemma firstn_all_app {A} (l1 l2 : list A) :
  firstn (length l1) (l1 ++ l2) = l1.
Proof.
  induction l1 as [|x l1 IH]; simpl; [destruct l2; reflexivity|].
  rewrite IH. reflexivity.
Qed.

(** The calls of a plan are all made on the given repository, as a dataset,
    with the given token. *)
Lemma upload_plan_addressed (w : world) (repo tok : str) (inc : bool) :
  Forall (fun c => repo_id c = repo /\ token c = tok /\
                   repo_type c = py "dataset")
    (upload_plan w repo tok inc).
Proof.
  unfold upload_plan. constructor; [repeat split|].
  destruct inc; [|constructor].
  destruct (images_dir w) as [d|]; [|constructor].
  induction (glob_images d) as [|n l IH]; constructor;
    [repeat split | exact IH].
Qed.

(** X1: Whatever the remote side answers, [upload_to_huggingface] returns a
    flag and a message and never raises; it leaves the backing file, the
    image directory and the load cache as they were; and the calls it made
    are the first calls of its plan, in order, all of them on the given
    repository with the given token. *)
Theorem upload_makes_a_prefix_of_the_plan (h : hub) (w : world)
    (repo tok : str) (inc : bool) :
  exists b m w' k,
    upload_to_huggingface h repo tok inc w = Ok (b, m) w' /\
    uploads w' = uploads w ++ firstn k (upload_plan w repo tok inc) /\
    data_file w' = data_file w /\ images_dir w' = images_dir w /\
    load_cache w' = load_cache w /\
    Forall (fun c => repo_id c = repo /\ token c = tok /\
                     repo_type c = py "dataset")
      (firstn k (upload_plan w repo tok inc)).
Proof.
  assert (Haddr : forall k,
            Forall (fun c => repo_id c = repo /\ token c = tok /\
                             repo_type c = py "dataset")
              (firstn k (upload_plan w repo tok inc))).
  { intros k. apply List.Forall_forall. intros c Hc.
    pose proof (upload_plan_addressed w repo tok inc) as Hall.
    rewrite List.Forall_forall in Hall. apply Hall.
    rewrite <- (firstn_skipn k (upload_plan w repo tok inc)).
    apply in_or_app. left. exact Hc. }
  destruct (data_file w) as [f|] eqn:Hf.
  - destruct (initialize_hf_api_run h tok w) as [r [c Hinit]].
    destruct r as [|err].
    + pose proof (upload_to_huggingface_run h repo tok inc w _ f Hf Hinit)
        as Hrun.
      destruct (accepted_or_refused h (upload_plan w repo tok inc)
                  (uploads w))
        as [Hacc|[pre [c' [post [err [Hplan [Hacc Herr]]]]]]].
      * exists true. eexists _, _, (length (upload_plan w repo tok inc)).
        split.
        { rewrite Hrun. unfold try_except, bind.
          rewrite transmit_accepted by exact Hacc. reflexivity. }
        split; [rewrite firstn_all; reflexivity|].
        repeat split; try exact Hf; apply Haddr.
      * exists false. eexists _, _, (length (pre ++ [c'])).
        split.
        { rewrite Hrun. unfold try_except, bind. rewrite Hplan.
          rewrite (transmit_refused h pre c' post err) by assumption.
          reflexivity. }
        assert (Hfirst : firstn (length (pre ++ [c']))
                           (upload_plan w repo tok inc) = pre ++ [c']).
        { rewrite Hplan.
          change (pre ++ c' :: post) with (pre ++ [c'] ++ post).
          rewrite app_assoc. apply firstn_all_app. }
        split; [rewrite Hfirst; reflexivity|].
        repeat split; try exact Hf; apply Haddr.
    + exists false, (py "Login failed: " ++ err), (with_hf_cache c w), 0.
      split.
      { unfold upload_to_huggingface.
        unfold bind at 1. unfold data_file_exists, get. rewrite Hf.
        cbn [negb]. unfold bind. rewrite Hinit. reflexivity. }
      cbn [firstn]. rewrite app_nil_r. repeat split; try exact Hf; constructor.
  - exists false, (py "No local dataset found."), w, 0.
    split.
    { unfold upload_to_huggingface, bind, data_file_exists, get.
      rewrite Hf. reflexivity. }
    cbn [firstn]. rewrite app_nil_r. repeat split; try exact Hf; constructor.
Qed.

(** X2: [upload_to_huggingface] reports success only when the backing file
    exists and every call of the plan was made and accepted. *)
Theorem upload_success_means_all_sent (h : hub) (w w' : world)
    (repo tok m : str) (inc : bool) :
  upload_to_huggingface h repo tok inc w = Ok (true, m) w' ->
  (exists f, data_file w = Some f) /\
  accepted h (uploads w) (upload_plan w repo tok inc) /\
  uploads w' = uploads w ++ upload_plan w repo tok inc /\
  m = py "Dataset uploaded successfully to: https://huggingface.co/datasets/"
        ++ repo.
Proof.
  intros Hup.
  destruct (data_file w) as [f|] eqn:Hf.
  - destruct (initialize_hf_api_run h tok w) as [r [c Hinit]].
    destruct r as [|err].
    + rewrite (upload_to_huggingface_run h repo tok inc w _ f Hf Hinit)
        in Hup.
      destruct (accepted_or_refused h (upload_plan w repo tok inc)
                  (uploads w))
        as [Hacc|[pre [c' [post [err [Hplan [Hacc Herr]]]]]]].
      * unfold try_except, bind in Hup.
        rewrite transmit_accepted in Hup by exact Hacc.
        injection Hup as <- <-.
        split; [exists f; reflexivity|]. split; [exact Hacc|].
        split; reflexivity.
      * unfold try_except, bind in Hup. rewrite Hplan in Hup.
        rewrite (transmit_refused h pre c' post err) in Hup by assumption.
        discriminate Hup.
    + revert Hup. unfold upload_to_huggingface.
      unfold bind at 1. unfold data_file_exists, get. rewrite Hf.
      cbn [negb]. unfold bind. rewrite Hinit. discriminate.
  - revert Hup. unfold upload_to_huggingface, bind, data_file_exists, get.
    rewrite Hf. discriminate.
Qed.

(** Under [st.cache_resource], what [initialize_hf_api] returned for a token
    is what it returns from then on, whatever the remote side would answer
    now. *)
Lemma initialize_hf_api_hit (h : hub) (tok : str) (w : world)
    (r : hf_result) :
  hf_cache w !! tok = Some r -> initialize_hf_api h tok w = Ok r w.
Proof.
  intros E. unfold initialize_hf_api, bind, get. rewrite E. reflexivity.
Qed.

Lemma initialize_hf_api_stores (h : hub) (tok : str) (w w1 : world)
    (r : hf_result) :
  initialize_hf_api h tok w = Ok r w1 -> hf_cache w1 !! tok = Some r.
Proof.
  unfold initialize_hf_api, bind, get, set_hf_cache, modify, ret.
  destruct (hf_cache w !! tok) as [r0|] eqn:E.
  - intros Heq. injection Heq as <- <-. exact E.
  - intros Heq. injection Heq as <- <-.
    cbn [hf_cache with_hf_cache]. apply lookup_insert_eq.
Qed.

Lemma initialize_hf_api_cached (h h' : hub) (tok : str) (w w1 : world)
    (r : hf_result) :
  initialize_hf_api h tok w = Ok r w1 ->
  initialize_hf_api h' tok w1 = Ok r w1.
Proof.
  intros H. apply initialize_hf_api_hit.
  exact (initialize_hf_api_stores h tok w w1 r H).
Qed.

(** X3: A token whose login failed once stays refused: every later upload with
    it returns the failure of that first attempt without asking the remote
    side again and without sending anything, even if the token would now be
    accepted; a token that was accepted once is never checked again. *)
Theorem login_outcome_is_kept (h h' : hub) (tok repo : str) (inc : bool)
    (w w1 : world) (r : hf_result) (f : csv_file) :
  initialize_hf_api h tok w = Ok r w1 ->
  data_file w = Some f ->
  initialize_hf_api h' tok w1 = Ok r w1 /\
  (forall err, r = LoginFailed err ->
     upload_to_huggingface h' repo tok inc w1
     = Ok (false, py "Login failed: " ++ err) w1) /\
  (r = Client ->
   accepted h' (uploads w) (upload_plan w repo tok inc) ->
   exists w',
     upload_to_huggingface h' repo tok inc w1
     = Ok (true,
           py "Dataset uploaded successfully to: https://huggingface.co/datasets/"
             ++ repo) w' /\
     hf_cache w' = hf_cache w1).
Proof.
  intros Hinit Hf.
  pose proof (initialize_hf_api_cached h h' tok w w1 r Hinit) as Hagain.
  destruct (initialize_hf_api_frame h tok w w1 r Hinit)
    as [Hf1 [Hd1 [_ Hu1]]].
  rewrite <- Hf1 in Hf.
  split; [exact Hagain|]. split.
  - intros err ->. unfold upload_to_huggingface.
    unfold bind at 1. unfold data_file_exists, get. rewrite Hf.
    cbn [negb]. unfold bind. rewrite Hagain. reflexivity.
  - intros -> Hacc.
    rewrite (upload_to_huggingface_run h' repo tok inc w1 w1 f Hf Hagain).
    assert (Hplan : upload_plan w1 repo tok inc = upload_plan w repo tok inc)
      by (unfold upload_plan; rewrite Hd1; reflexivity).
    rewrite Hplan. unfold try_except, bind.
    rewrite transmit_accepted by (rewrite Hu1; exact Hacc).
    eexists. split; reflexivity.
Qed.

(** X4: After an upload that stopped at a refused call, a second upload starts
    from the beginning: when the remote side then accepts every call, it
    succeeds and has sent the whole plan again, the table included. *)
Theorem upload_retry_sends_everything (h h2 : hub) (w w1 : world)
    (repo tok : str) (inc : bool) (f : csv_file)
    (pre post : list upload_call) (c : upload_call) (err : str) :
  data_file w = Some f ->
  initialize_hf_api h tok w = Ok Client w1 ->
  upload_plan w repo tok inc = pre ++ c :: post ->
  accepted h (uploads w) pre ->
  upload_file h (uploads w ++ pre) c = Some err ->
  accepted h2 (uploads w ++ pre ++ [c]) (upload_plan w repo tok inc) ->
  exists w' w'',
    upload_to_huggingface h repo tok inc w
    = Ok (false, py "Upload failed: " ++ err) w' /\
    upload_to_huggingface h2 repo tok inc w'
    = Ok (true,
          py "Dataset uploaded successfully to: https://huggingface.co/datasets/"
            ++ repo) w'' /\
    uploads w'' = uploads w ++ pre ++ [c] ++ upload_plan w repo tok inc.
Proof.
  intros Hf Hinit Hplan Hacc Herr Hacc2.
  destruct (initialize_hf_api_frame h tok w w1 _ Hinit)
    as [Hf1 [Hd1 [Hc1 Hu1]]].
  set (w' := with_uploads (uploads w ++ pre ++ [c]) w1).
  assert (Hinit' : initialize_hf_api h2 tok w' = Ok Client w').
  { apply initialize_hf_api_hit. cbn [hf_cache with_uploads w'].
    exact (initialize_hf_api_stores h tok w w1 Client Hinit). }
  assert (Hplan' : upload_plan w' repo tok inc = upload_plan w repo tok inc).
  { unfold upload_plan. cbn [images_dir with_uploads w']. rewrite Hd1.
    reflexivity. }
  exists w', (with_uploads
                (uploads w ++ pre ++ [c] ++ upload_plan w repo tok inc) w').
  split; [|split; [|reflexivity]].
  - rewrite (upload_to_huggingface_run h repo tok inc w w1 f Hf Hinit).
    unfold try_except, bind. rewrite Hplan.
    rewrite (transmit_refused h pre c post err w1)
      by (rewrite Hu1; assumption).
    rewrite Hu1. reflexivity.
  - rewrite (upload_to_huggingface_run h2 repo tok inc w' w' f
               (eq_trans Hf1 Hf) Hinit').
    rewrite Hplan'. unfold try_except, bind.
    rewrite transmit_accepted by exact Hacc2.
    cbn [uploads with_uploads w']. rewrite <- !app_assoc. reflexivity.
Qed.

(** X5: The Upload button sends nothing unless a token and a repository were
    entered and the loaded frame has a row; with all three it does what
    [upload_to_huggingface] does. *)
Theorem upload_clicked_guards (h : hub) (tok repo : str) (df : frame)
    (inc : bool) (w : world) :
  (tok = [] \/ repo = [] \/ rows df = [] ->
   exists m, upload_clicked h tok repo df inc w = Ok (false, m) w) /\
  (tok <> [] -> repo <> [] -> rows df <> [] ->
   upload_clicked h tok repo df inc w
   = upload_to_huggingface h repo tok inc w) /\
  (forall b m w',
     upload_clicked h tok repo df inc w = Ok (b, m) w' ->
     uploads w' <> uploads w ->
     tok <> [] /\ repo <> [] /\ rows df <> []).
Proof.
  assert (Hguard : tok = [] \/ repo = [] \/ rows df = [] ->
            exists m, upload_clicked h tok repo df inc w = Ok (false, m) w).
  { unfold upload_clicked, frame_empty.
    destruct tok as [|t tok]; [intros _; eexists; reflexivity|].
    destruct repo as [|c repo]; [intros _; eexists; reflexivity|].
    destruct (rows df); [intros _; eexists; reflexivity|].
    intros [H|[H|H]]; discriminate H. }
  split; [exact Hguard|]. split.
  - intros Ht Hr Hd. unfold upload_clicked, frame_empty.
    destruct tok; [congruence|]. destruct repo; [congruence|].
    destruct (rows df); [congruence|]. reflexivity.
  - intros b m w' Hrun Hsent.
    destruct tok as [|t tok'] eqn:Et.
    { destruct (Hguard (or_introl eq_refl)) as [m0 H0].
      rewrite H0 in Hrun. injection Hrun as _ _ <-. congruence. }
    destruct repo as [|c repo'] eqn:Er.
    { destruct (Hguard (or_intror (or_introl eq_refl))) as [m0 H0].
      rewrite H0 in Hrun. injection Hrun as _ _ <-. congruence. }
    destruct (rows df) as [|r rs] eqn:Ed.
    { destruct (Hguard (or_intror (or_intror eq_refl))) as [m0 H0].
      rewrite H0 in Hrun. injection Hrun as _ _ <-. congruence. }
    repeat split; discriminate.
Qed.

(** ** Trimmed texts *)

Lemma lstrip_fixed (s : str) :
  match s with c :: _ => isspace c = false | [] => True end ->
  lstrip s = s.
Proof. destruct s as [|c s]; simpl; [reflexivity|]. intros ->. reflexivity. Qed.

Lemma lstrip_head (s : str) :
  match lstrip s with c :: _ => isspace c = false | [] => True end.
Proof.
  induction s as [|c s IH]; simpl; [exact I|].
  destruct (isspace c) eqn:E; [exact IH | exact E].
Qed.

Lemma lstrip_idempotent (s : str) : lstrip (lstrip s) = lstrip s.
Proof. apply lstrip_fixed, lstrip_head. Qed.

Lemma rstrip_idempotent (s : str) : rstrip (rstrip s) = rstrip s.
Proof.
  unfold rstrip. rewrite rev_involutive, lstrip_idempotent. reflexivity.
Qed.

(** What [rstrip] removes is at the end. *)
Lemma rstrip_prefix (s : str) : exists p, s = rstrip s ++ p.
Proof.
  unfold rstrip. destruct (lstrip_suffix (rev s)) as [p Hp].
  exists (rev p). rewrite <- rev_app_distr, <- Hp, rev_involutive.
  reflexivity.
Qed.

Lemma rstrip_keeps_head (s : str) :
  match s with c :: _ => isspace c = false | [] => True end ->
  match rstrip s with c :: _ => isspace c = false | [] => True end.
Proof.
  intros Hs. destruct (rstrip_prefix s) as [p Hp].
  destruct (rstrip s) as [|c t]; [exact I|].
  rewrite Hp in Hs. exact Hs.
Qed.

Lemma strip_idempotent (s : str) : strip (strip s) = strip s.
Proof.
  unfold strip.
  rewrite (lstrip_fixed (rstrip (lstrip s)))
    by (apply rstrip_keeps_head, lstrip_head).
  apply rstrip_idempotent.
Qed.

Lemma last_rev_head {A} (l : list A) : last (rev l) = head l.
Proof. destruct l as [|x l]; [reflexivity|]. cbn [rev]. apply last_snoc. Qed.

(** A trimmed text neither begins nor ends with a white space. *)
Lemma strip_ends (s : str) :
  (forall c, head (strip s) = Some c -> isspace c = false) /\
  (forall c, last (strip s) = Some c -> isspace c = false).
Proof.
  split; intros c Hc.
  - pose proof (rstrip_keeps_head (lstrip s) (lstrip_head s)) as H.
    unfold strip in Hc. destruct (rstrip (lstrip s)); [discriminate|].
    injection Hc as <-. exact H.
  - unfold strip, rstrip in Hc. rewrite last_rev_head in Hc.
    pose proof (lstrip_head (rev (lstrip s))) as H.
    destruct (lstrip (rev (lstrip s))); [discriminate|].
    injection Hc as <-. exact H.
Qed.

Lemma too_short_stripped (s : str) (n : nat) :
  0 < n ->
  Validator.too_short (Some (strip s)) n = Validator.too_short (Some s) n.
Proof.
  intros Hn. rewrite !too_short_trimmed by exact Hn.
  cbn [Validator.trimmed_length]. rewrite strip_idempotent. reflexivity.
Qed.

Lemma validate_passes (n i s : option str) :
  Validator.validate_recipe_data n i s = [] <->
  Validator.too_short n 3 = false /\ Validator.too_short i 10 = false /\
  Validator.too_short s 20 = false.
Proof.
  unfold Validator.validate_recipe_data.
  destruct (Validator.too_short n 3), (Validator.too_short i 10),
    (Validator.too_short s 20); cbn [app]; split;
    (discriminate || tauto || (intros [? [? ?]]; discriminate)).
Qed.

(** ** The Save button *)

(** X6: What is stored of an accepted form passes the validator itself: the
    stored name, ingredients and instructions are the trimmed texts, of at
    least 3, 10 and 20 characters, trimming them again changes nothing, and
    they neither begin nor end with a white space. *)
Theorem stored_record_is_valid (f : form) (img : option str) :
  Validator.validate_recipe_data (Some (recipe_name f))
    (Some (form_ingredients f)) (Some (form_instructions f)) = [] ->
  exists n i s,
    name (recipe_data f img) = VStr n /\
    ingredients (recipe_data f img) = VStr i /\
    instructions (recipe_data f img) = VStr s /\
    3 <= length n /\ 10 <= length i /\ 20 <= length s /\
    strip n = n /\ strip i = i /\ strip s = s /\
    Validator.validate_recipe_data (Some n) (Some i) (Some s) = [] /\
    (forall c, head n = Some c \/ last n = Some c -> isspace c = false).
Proof.
  intros Hv. apply validate_passes in Hv. destruct Hv as [Hn [Hi Hs]].
  exists (strip (recipe_name f)), (strip (form_ingredients f)),
    (strip (form_instructions f)).
  split; [reflexivity|]. split; [reflexivity|]. split; [reflexivity|].
  pose proof Hn as Hn'. pose proof Hi as Hi'. pose proof Hs as Hs'.
  rewrite too_short_trimmed in Hn', Hi', Hs' by lia.
  apply Nat.ltb_ge in Hn', Hi', Hs'.
  cbn [Validator.trimmed_length] in Hn', Hi', Hs'.
  repeat (split; [first [assumption | apply strip_idempotent]|]).
  split.
  - apply validate_passes. rewrite !too_short_stripped by lia. auto.
  - intros c [Hc|Hc]; [apply (proj1 (strip_ends (recipe_name f)) c Hc)
                      | apply (proj2 (strip_ends (recipe_name f)) c Hc)].
Qed.


Lemma save_image_no_directory (img : uploaded_file) (n : str) (w : world) :
  images_dir w = None ->
  exists msg, save_image (Some img) n w = Raise (OSError msg) w.
Proof.
  intros Hd. unfold save_image, write_image, bind, get.
  rewrite Hd. eexists. reflexivity.
Qed.


(** Saving with field texts that the file holds as written. *)
Lemma save_storable (r : row cell) (w : world) :
  (forall err, data_file w <> Some (Unparsable err)) ->
  forallb storable_line (written_lines w r) = true ->
  save_recipe_locally r w
  = Ok tt (with_load_cache None
             (with_data_file (Some (Table (written_lines w r))) w)).
Proof.
  intros Hok Hst. rewrite save_recipe_locally_run.
  assert (Hrun : (to_csv (stacked w r);; load_existing_data_clear) w
                 = Ok tt (with_load_cache None
                            (with_data_file
                               (Some (Table (written_lines w r))) w)))
    by (apply to_csv_storable; exact Hst).
  destruct (data_file w) as [[lines|err]|] eqn:E;
    [exact Hrun | exfalso; exact (Hok err eq_refl) | exact Hrun].
Qed.



(** X8: An accepted form whose image cannot be written (no image directory):
    the exception leaves the handler before the record is built, so nothing
    is appended and nothing is cleared. *)
Theorem submit_fails_before_record (f : form) (img : uploaded_file)
    (w : world) :
  Validator.validate_recipe_data (Some (recipe_name f))
    (Some (form_ingredients f)) (Some (form_instructions f)) = [] ->
  image_file f = Some img ->
  images_dir w = None ->
  exists msg, submit f w = Raise (OSError msg) w.
Proof.
  intros Hv Himg Hd.
  destruct (save_image_no_directory img (recipe_name f) w Hd) as [msg Hrun].
  exists msg. unfold submit. rewrite Hv, Himg. unfold bind.
  rewrite Hrun. reflexivity.
Qed.


(** X10: A form that the validator rejects changes nothing: no image is
    written, no record appended, no cache cleared. *)
Theorem submit_rejects_without_effect (f : form) (w : world) :
  Validator.trimmed_length (Some (recipe_name f)) < 3 \/
  Validator.trimmed_length (Some (form_ingredients f)) < 10 \/
  Validator.trimmed_length (Some (form_instructions f)) < 20 ->
  exists e errors,
    Validator.validate_recipe_data (Some (recipe_name f))
      (Some (form_ingredients f)) (Some (form_instructions f))
    = e :: errors /\
    submit f w = Ok (Rejected (e :: errors)) w.
Proof.
  intros Hshort.
  destruct (Validator.validate_recipe_data (Some (recipe_name f))
              (Some (form_ingredients f)) (Some (form_instructions f)))
    as [|e errors] eqn:Hv.
  - exfalso. apply validate_passes in Hv. destruct Hv as [Hn [Hi Hs]].
    rewrite too_short_trimmed in Hn, Hi, Hs by lia.
    apply Nat.ltb_ge in Hn, Hi, Hs. lia.
  - exists e, errors. split; [reflexivity|].
    apply submit_rejected. exact Hv.
Qed.

(** ** The backing file and the cache *)

(** X11: A backing file that cannot be read is never overwritten: appending
    raises and changes nothing, and loading raises without caching the
    failure, unless a frame was cached before. *)
Theorem unreadable_file_is_kept (w : world) (r : row cell) (err : str) :
  data_file w = Some (Unparsable err) ->
  save_recipe_locally r w = Raise (ParserError err) w /\
  (load_cache w = None ->
   load_existing_data w = Raise (ParserError err) w) /\
  (forall df, load_cache w = Some df -> load_existing_data w = Ok df w).
Proof.
  intros Hf. split; [|split].
  - rewrite save_recipe_locally_run, Hf. reflexivity.
  - intros Hc. rewrite load_existing_data_run, Hc, Hf. reflexivity.
  - intros df Hc. rewrite load_existing_data_run, Hc. reflexivity.
Qed.

(** X12: What [load_existing_data] returned once is what it returns until the
    cache is cleared, whatever becomes of the backing file in between. *)
Theorem load_is_cached (w w1 : world) (df : frame) :
  load_existing_data w = Ok df w1 ->
  load_cache w1 = Some df /\
  forall content : option csv_file,
    load_existing_data (with_data_file content w1)
    = Ok df (with_data_file content w1).
Proof.
  rewrite load_existing_data_run. intros Hrun.
  assert (Hc : load_cache w1 = Some df).
  { destruct (load_cache w) as [df0|] eqn:E.
    - injection Hrun as <- <-. exact E.
    - destruct (data_file w) as [[lines|err]|];
        [injection Hrun as <- <- | discriminate | injection Hrun as <- <-];
        reflexivity. }
  split; [exact Hc|]. intros content.
  rewrite load_existing_data_run. cbn [load_cache with_data_file].
  rewrite Hc. reflexivity.
Qed.

Lemma skipn_snoc {A} (k : nat) (l : list A) (x : A) :
  k <= length l -> skipn k (l ++ [x]) = skipn k l ++ [x].
Proof.
  intros Hk. rewrite skipn_app.
  replace (k - length l) with 0 by lia. reflexivity.
Qed.

(** X13: A recipe that was just saved is the last of the recent recipes shown
    after the next load, with its name and language as entered, when these
    are texts the reader keeps as text; and at most five are shown. *)
Theorem saved_recipe_is_shown_last (w w' : world) (r : row cell)
    (n l : str) :
  save_recipe_locally r w = Ok tt w' ->
  forallb storable_line (written_lines w r) = true ->
  name r = VStr n -> language r = VStr l ->
  is_text n = true -> is_text l = true ->
  exists df w'' earlier,
    load_existing_data w' = Ok df w'' /\
    recent_recipes df = earlier ++ [(VStr n, VStr l)] /\
    length (recent_recipes df) <= 5.
Proof.
  intros Hsave Hst Hn Hl Htn Htl.
  assert (Hok : forall err, data_file w <> Some (Unparsable err)).
  { intros err Hf. rewrite save_recipe_locally_run, Hf in Hsave.
    discriminate Hsave. }
  rewrite (save_storable r w Hok Hst) in Hsave. injection Hsave as <-.
  destruct (written_lines_spec w r) as [old [new_line [Hlines [_ Hback]]]].
  set (df := read_table (written_lines w r)) in *.
  assert (Hrows : rows df
                  = map (row_zip conv (dtypes df)) old
                    ++ [row_zip conv (dtypes df) new_line]).
  { unfold df at 1, read_table. cbn [rows]. fold df.
    change (row_map col_dtype (columns (written_lines w r)))
      with (dtypes df).
    rewrite Hlines, map_app. reflexivity. }
  destruct Hback as [Hname [Hlang _]].
  assert (Hname' : name (row_zip conv (dtypes df) new_line) = VStr n).
  { change (reads_back (map name (lines_of w)) (name r)
              (name (row_zip conv (dtypes df) new_line))) in Hname.
    rewrite Hn in Hname. apply Hname. exact Htn. }
  assert (Hlang' : language (row_zip conv (dtypes df) new_line) = VStr l).
  { change (reads_back (map language (lines_of w)) (language r)
              (language (row_zip conv (dtypes df) new_line))) in Hlang.
    rewrite Hl in Hlang. apply Hlang. exact Htl. }
  exists df. eexists.
  exists (map (fun r => (name r, language r))
            (skipn (length (rows df) - 5)
               (map (row_zip conv (dtypes df)) old))).
  split; [rewrite load_existing_data_run; reflexivity|].
  assert (Hrecent : recent_recipes df
                    = map (fun r => (name r, language r))
                        (skipn (length (rows df) - 5) (rows df))).
  { unfold recent_recipes, frame_empty, tail. rewrite Hrows.
    destruct (map (row_zip conv (dtypes df)) old); reflexivity. }
  split.
  - rewrite Hrecent. rewrite Hrows at 2.
    rewrite skipn_snoc by (rewrite Hrows, length_app; cbn [length]; lia).
    rewrite map_app. cbn [map]. rewrite Hname', Hlang'. reflexivity.
  - rewrite Hrecent, length_map, length_skipn. lia.
Qed.

(** ** Configuration file *)

Lemma hex_value_digit (n : N) :
  (n < 16)%N -> Json.hex_value (Json.hex_digit n) = Some n.
Proof.
  intros Hn.
  assert (Hk : exists k, k < 16 /\ n = N.of_nat k)
    by (exists (N.to_nat n); split; lia).
  destruct Hk as [k [Hk ->]].
  do 16 (destruct k as [|k]; [reflexivity|]). lia.
Qed.

Lemma hex_places (n : Z) :
  (0 <= n)%Z ->
  (((Z.div n 4096 * 16 + Z.modulo (Z.div n 256) 16) * 16
    + Z.modulo (Z.div n 16) 16) * 16 + Z.modulo n 16 = n)%Z.
Proof. intros Hn. Z.div_mod_to_equations. lia. Qed.

Lemma parse_hex4_hex4 (n : N) :
  (n < 65536)%N ->
  Json.parse_hex4 (Json.hex_digit (n / 4096))
    (Json.hex_digit ((n / 256) mod 16)) (Json.hex_digit ((n / 16) mod 16))
    (Json.hex_digit (n mod 16)) = Some n.
Proof.
  intros Hn. unfold Json.parse_hex4.
  rewrite !hex_value_digit;
    try (apply N.mod_lt; discriminate);
    try (apply N.Div0.div_lt_upper_bound; exact Hn).
  f_equal. apply N2Z.inj.
  repeat first [ rewrite N2Z.inj_add | rewrite N2Z.inj_mul
               | rewrite N2Z.inj_mod | rewrite N2Z.inj_div ].
  apply hex_places. lia.
Qed.

Lemma scan_plain (c : N) (rest : str) :
  (c =? 34)%N = false -> (c =? 92)%N = false -> (c <? 32)%N = false ->
  Json.scanstring (c :: rest) = Json.cons_text c (Json.scanstring rest).
Proof. intros H1 H2 H3. cbn [Json.scanstring]. rewrite H1, H2, H3. reflexivity. Qed.

Lemma scan_u (a b c d uni : N) (rest : str) :
  Json.parse_hex4 a b c d = Some uni -> Json.high_surrogate uni = false ->
  Json.scanstring (92 :: 117 :: a :: b :: c :: d :: rest)%N
  = Json.cons_text uni (Json.scanstring rest).
Proof.
  intros Hp Hh. cbn [Json.scanstring N.eqb Pos.eqb]. rewrite Hp, Hh.
  destruct rest as [|x1 [|x2 [|x3 [|x4 [|x5 [|x6 rest]]]]]]; reflexivity.
Qed.

Lemma scan_pair (a b c d a' b' c' d' hi lo : N) (rest : str) :
  Json.parse_hex4 a b c d = Some hi ->
  Json.parse_hex4 a' b' c' d' = Some lo ->
  Json.high_surrogate hi = true -> Json.low_surrogate lo = true ->
  Json.scanstring
    (92 :: 117 :: a :: b :: c :: d :: 92 :: 117 :: a' :: b' :: c' :: d'
       :: rest)%N
  = Json.cons_text (65536 + ((hi - 55296) * 1024 + (lo - 56320)))%N
      (Json.scanstring rest).
Proof.
  intros Hp Hp' Hh Hl.
  cbn [Json.scanstring N.eqb Pos.eqb andb]. rewrite Hp, Hh.
  cbn [andb N.eqb Pos.eqb]. rewrite Hp', Hl. reflexivity.
Qed.

(** The reader gives back the character that the writer wrote. *)
Lemma scan_encode_char (c : N) (rest : str) :
  scalar c = true ->
  Json.scanstring (Json.encode_char c ++ rest)
  = Json.cons_text c (Json.scanstring rest).
Proof.
  intros Hc. unfold Json.encode_char.
  destruct (N.eqb_spec c 34) as [->|H34]; [reflexivity|].
  destruct (N.eqb_spec c 92) as [->|H92]; [reflexivity|].
  destruct (N.eqb_spec c 10) as [->|H10]; [reflexivity|].
  destruct (N.eqb_spec c 13) as [->|H13]; [reflexivity|].
  destruct (N.eqb_spec c 9) as [->|H9]; [reflexivity|].
  destruct (N.eqb_spec c 8) as [->|H8]; [reflexivity|].
  destruct (N.eqb_spec c 12) as [->|H12]; [reflexivity|].
  unfold scalar in Hc.
  rewrite orb_true_iff, andb_true_iff, !N.ltb_lt in Hc.
  destruct ((32 <=? c) && (c <=? 126))%N eqn:Hp.
  - apply andb_true_iff in Hp. destruct Hp as [Hlo Hhi].
    apply N.leb_le in Hlo. cbn [app].
    apply scan_plain; [apply N.eqb_neq | apply N.eqb_neq | apply N.ltb_ge];
      assumption.
  - destruct (N.ltb_spec c 65536) as [Hlt|Hge].
    + unfold Json.escape_u, Json.hex4. cbn [app].
      apply scan_u; [apply parse_hex4_hex4; exact Hlt|].
      unfold Json.high_surrogate. apply andb_false_iff.
      rewrite !N.leb_gt. lia.
    + unfold Json.escape_u, Json.hex4. cbn [app].
      assert (Hn : (c - 65536 < 1048576)%N) by lia.
      assert (Hq : ((c - 65536) / 1024 < 1024)%N)
        by (apply N.Div0.div_lt_upper_bound; exact Hn).
      assert (Hr : ((c - 65536) mod 1024 < 1024)%N)
        by (apply N.mod_lt; discriminate).
      rewrite (N.mod_small _ _ Hq).
      rewrite (scan_pair _ _ _ _ _ _ _ _
                 (55296 + (c - 65536) / 1024)%N
                 (56320 + (c - 65536) mod 1024)%N).
      * f_equal.
        pose proof (N.div_mod (c - 65536) 1024 ltac:(discriminate)) as Hdm.
        revert Hq Hr Hdm.
        generalize ((c - 65536) / 1024)%N, ((c - 65536) mod 1024)%N.
        intros q r Hq Hr Hdm. lia.
      * apply parse_hex4_hex4. revert Hq.
        generalize ((c - 65536) / 1024)%N. intros q Hq. lia.
      * apply parse_hex4_hex4. revert Hr.
        generalize ((c - 65536) mod 1024)%N. intros r Hr. lia.
      * unfold Json.high_surrogate. apply andb_true_iff.
        rewrite !N.leb_le. revert Hq.
        generalize ((c - 65536) / 1024)%N. intros q Hq. lia.
      * unfold Json.low_surrogate. apply andb_true_iff.
        rewrite !N.leb_le. revert Hr.
        generalize ((c - 65536) mod 1024)%N. intros r Hr. lia.
Qed.

(** The reader gives back the text that the writer wrote between quotes. *)
Lemma scan_encode (t rest : str) :
  forallb scalar t = true ->
  Json.scanstring (flat_map Json.encode_char t ++ 34%N :: rest)
  = Some (t, rest).
Proof.
  induction t as [|c t IH]; intros Ht.
  - reflexivity.
  - cbn [forallb] in Ht. apply andb_true_iff in Ht. destruct Ht as [Hc Ht].
    cbn [flat_map]. rewrite <- app_assoc.
    rewrite (scan_encode_char c _ Hc), (IH Ht). reflexivity.
Qed.

Lemma dumps_members (kv : str * str) (rest : list (str * str)) :
  Json.dumps (kv :: rest) = (123 :: 34 :: members_text kv rest)%N.
Proof.
  unfold Json.dumps. f_equal.
  revert kv. induction rest as [|kv' rest IH]; intros kv.
  - unfold Json.member, Json.quote. cbn [flat_map members_text].
    repeat first [rewrite <- app_assoc | progress cbn [app]]. reflexivity.
  - cbn [flat_map members_text]. rewrite <- !app_assoc, (IH kv').
    unfold Json.member, Json.quote.
    repeat first [rewrite <- app_assoc | progress cbn [app]]. reflexivity.
Qed.

Lemma members_text_length (kv : str * str) (rest : list (str * str)) :
  length rest < length (members_text kv rest).
Proof.
  revert kv. induction rest as [|kv' rest IH]; intros kv;
    cbn [members_text]; rewrite !length_app; cbn [length].
  - lia.
  - rewrite length_app. cbn [length]. specialize (IH kv'). lia.
Qed.

Lemma members_round_trip (rest : list (str * str)) (kv : str * str)
    (fuel : nat) (tail : str) :
  Forall (fun kv => forallb scalar (fst kv) = true /\
                    forallb scalar (snd kv) = true) (kv :: rest) ->
  length rest < fuel ->
  Json.members fuel (members_text kv rest ++ tail) = Some (kv :: rest, tail).
Proof.
  revert kv fuel. induction rest as [|kv' rest IH]; intros [k v] fuel Hwf Hfuel;
    (destruct fuel as [|fuel]; [lia|]);
    apply Forall_cons in Hwf; destruct Hwf as [[Hk Hv] Hwf];
    cbn [fst snd] in Hk, Hv;
    cbn [members_text fst snd]; rewrite <- !app_assoc;
    cbn [Json.members app]; rewrite (scan_encode k _ Hk);
    cbn [Json.skip_ws Json.whitespace N.eqb Pos.eqb orb];
    rewrite (scan_encode v _ Hv);
    cbn [Json.skip_ws Json.whitespace N.eqb Pos.eqb orb app].
  - reflexivity.
  - rewrite (IH kv' fuel Hwf) by (cbn [length] in Hfuel; lia). reflexivity.
Qed.

Lemma dict_set_fresh (k v : str) (config : list (str * str)) :
  ~ In k (map fst config) -> dict_set k v config = config ++ [(k, v)].
Proof.
  induction config as [|[k' v'] config IH]; cbn [dict_set map In fst app];
    intros Hk; [reflexivity|].
  rewrite bool_decide_eq_false_2 by tauto.
  rewrite IH by tauto. reflexivity.
Qed.

Lemma dict_of_distinct (pairs : list (str * str)) :
  NoDup (map fst pairs) -> dict_of pairs = pairs.
Proof.
  unfold dict_of.
  assert (H : forall acc,
            NoDup (map fst (acc ++ pairs)) ->
            fold_left (fun config kv => dict_set (fst kv) (snd kv) config)
              pairs acc = acc ++ pairs).
  { induction pairs as [|[k v] pairs IH]; intros acc Hnd; cbn [fold_left].
    - rewrite app_nil_r. reflexivity.
    - cbn [fst snd]. rewrite dict_set_fresh.
      + rewrite IH; rewrite <- app_assoc; [reflexivity | exact Hnd].
      + rewrite map_app in Hnd. cbn [map fst] in Hnd.
        apply NoDup_ListNoDup in Hnd.
        apply List.NoDup_remove_2 in Hnd.
        intros Hin. apply Hnd. apply in_or_app. left. exact Hin. }
  intros Hnd. apply (H []). exact Hnd.
Qed.

Lemma loads_dumps (config : list (str * str)) :
  wf_config config -> json_loads (Json.dumps config) = Some config.
Proof.
  intros [Hnd Hwf]. destruct config as [|kv rest]; [reflexivity|].
  rewrite dumps_members. unfold json_loads.
  cbn [Json.skip_ws Json.whitespace N.eqb Pos.eqb orb].
  rewrite <- (app_nil_r (members_text kv rest)) at 2.
  rewrite (members_round_trip rest kv _ [] Hwf)
    by apply members_text_length.
  cbn [Json.skip_ws]. rewrite (dict_of_distinct _ Hnd). reflexivity.
Qed.

(** X14: What [save_config] writes, [load_config] reads back: the same keys
    with the same texts, in the same order, for every configuration whose
    texts are made of Unicode scalar values; and without a file
    [load_config] gives the empty configuration. *)
Theorem config_round_trip (config : list (str * str)) :
  wf_config config ->
  load_config (save_config config) = Some config /\
  load_config None = Some [].
Proof.
  intros Hwf. split; [|reflexivity].
  unfold save_config, load_config. apply loads_dumps. exact Hwf.
Qed.







(** ** The stored image name and the download *)

Lemma split_last_app (sep : N) (a b : str) :
  ~ In sep b -> split_last sep (a ++ sep :: b) = b.
Proof.
  intros Hb.
  assert (Hnone : existsb (N.eqb sep) b = false).
  { apply not_true_iff_false. intros H. apply existsb_exists in H.
    destruct H as [x [Hin Hx]]. apply N.eqb_eq in Hx. subst x.
    exact (Hb Hin). }
  induction a as [|x a IH]; cbn [app split_last].
  - rewrite Hnone, N.eqb_refl. reflexivity.
  - rewrite existsb_app. cbn [existsb]. rewrite N.eqb_refl, orb_true_r.
    exact IH.
Qed.

(** X16: The file name that [save_image] computes ends in a dot followed by the
    extension of the uploaded file name: taking the extension of the stored
    name, the way the program takes it, gives the extension of the upload;
    and that extension holds no dot. *)
Theorem filename_keeps_extension (image_file : uploaded_file)
    (recipe_name : str) :
  split_last (ord ".") (filename image_file recipe_name)
  = extension image_file /\
  ~ In (ord ".") (extension image_file) /\
  exists stem,
    filename image_file recipe_name
    = stem ++ py "." ++ extension image_file.
Proof.
  assert (Hext : ~ In (ord ".") (extension image_file))
    by apply split_last_no_sep.
  assert (Hshape : filename image_file recipe_name
                   = (safe_name recipe_name ++ py "_" ++ file_hash image_file)
                     ++ ord "." :: extension image_file).
  { unfold filename. rewrite <- !app_assoc. reflexivity. }
  split; [|split; [exact Hext|]].
  - rewrite Hshape. apply split_last_app. exact Hext.
  - exists (safe_name recipe_name ++ py "_" ++ file_hash image_file).
    exact Hshape.
Qed.

(** X17: After records with plain cells were appended, starting from a missing
    backing file, the text that the page offers for download is the content
    of the backing file, line for line: the same text that an upload would
    send. *)
Theorem download_is_the_backing_file (w0 : world) (rs : list (row cell)) :
  data_file w0 = None -> rs <> [] -> Forall plain_record rs ->
  exists w1 df w2,
    for_each rs save_recipe_locally w0 = Ok tt w1 /\
    load_existing_data w1 = Ok df w2 /\
    data_file w2 = Some (csv_data df) /\
    csv_data df = Table (map (row_map render) rs).
Proof.
  intros Hnone Hrs Hplain.
  destruct (append_plain_records rs [] w0 (List.Forall_nil _) Hplain Hnone)
    as [w1 [Hrun [Hfile [Hcache _]]]].
  cbn [app] in Hfile.
  assert (Hfile' : data_file w1 = Some (Table (map (row_map render) rs)))
    by (rewrite Hfile; destruct rs; [congruence | reflexivity]).
  assert (Hcsv : csv_data (read_table (map (row_map render) rs))
                 = Table (map (row_map render) rs)).
  { unfold csv_data. cbv zeta.
    rewrite (read_table_plain rs Hplain), map_map.
    rewrite (map_ext _ _ row_map_render_normalise).
    rewrite (storable_plain_lines rs Hplain). reflexivity. }
  exists w1, (read_table (map (row_map render) rs)),
    (with_load_cache (Some (read_table (map (row_map render) rs))) w1).
  split; [exact Hrun|]. split.
  - rewrite load_existing_data_run, (Hcache Hrs), Hfile'. reflexivity.
  - split; [|exact Hcsv]. rewrite Hcsv. exact Hfile'.
Qed.

(** ** The page after a save *)

(** The four ways in which [upload_to_huggingface] returns. *)
Lemma upload_cases (h : hub) (w : world) (repo tok : str) (inc : bool) :
  exists b m w',
    upload_to_huggingface h repo tok inc w = Ok (b, m) w' /\
    ((data_file w = None /\ b = false /\
      m = py "No local dataset found." /\ w' = w) \/
     (exists f err,
        data_file w = Some f /\
        initialize_hf_api h tok w = Ok (LoginFailed err) w' /\
        b = false /\ m = py "Login failed: " ++ err) \/
     (exists f c pre call post err,
        data_file w = Some f /\
        initialize_hf_api h tok w = Ok Client (with_hf_cache c w) /\
        upload_plan w repo tok inc = pre ++ call :: post /\
        accepted h (uploads w) pre /\
        upload_file h (uploads w ++ pre) call = Some err /\
        b = false /\ m = py "Upload failed: " ++ err /\
        w' = with_uploads (uploads w ++ pre ++ [call]) (with_hf_cache c w)) \/
     (exists f c,
        data_file w = Some f /\
        initialize_hf_api h tok w = Ok Client (with_hf_cache c w) /\
        accepted h (uploads w) (upload_plan w repo tok inc) /\
        b = true /\
        m = py "Dataset uploaded successfully to: https://huggingface.co/datasets/"
              ++ repo /\
        w' = with_uploads (uploads w ++ upload_plan w repo tok inc)
               (with_hf_cache c w))).
Proof.
  destruct (data_file w) as [f|] eqn:Hf.
  - destruct (initialize_hf_api_run h tok w) as [r [c Hinit]].
    destruct r as [|err].
    + pose proof (upload_to_huggingface_run h repo tok inc w _ f Hf Hinit)
        as Hrun.
      destruct (accepted_or_refused h (upload_plan w repo tok inc)
                  (uploads w))
        as [Hacc|[pre [c' [post [err [Hplan [Hacc Herr]]]]]]].
      * eexists _, _, _. split.
        { rewrite Hrun. unfold try_except, bind.
          rewrite transmit_accepted by exact Hacc. reflexivity. }
        right. right. right. exists f, c.
        split; [reflexivity|]. split; [exact Hinit|].
        split; [exact Hacc|]. repeat split.
      * eexists _, _, _. split.
        { rewrite Hrun. unfold try_except, bind. rewrite Hplan.
          rewrite (transmit_refused h pre c' post err) by assumption.
          reflexivity. }
        right. right. left. exists f, c, pre, c', post, err.
        split; [reflexivity|]. split; [exact Hinit|].
        split; [exact Hplan|]. split; [exact Hacc|].
        split; [exact Herr|]. repeat split.
    + eexists _, _, _. split.
      { unfold upload_to_huggingface.
        unfold bind at 1. unfold data_file_exists, get. rewrite Hf.
        cbn [negb]. unfold bind. rewrite Hinit. reflexivity. }
      right. left. exists f, err.
      split; [reflexivity|]. split; [exact Hinit|]. split; reflexivity.
  - eexists _, _, _. split.
    { unfold upload_to_huggingface, bind, data_file_exists, get.
      rewrite Hf. reflexivity. }
    left. repeat split.
Qed.

(** X18: The message of [upload_to_huggingface] tells the cause: it is
    [No local dataset found.] exactly when the backing file is missing, and
    then nothing was tried; otherwise [Login failed:] with the text of the
    login exception, and then nothing was sent; otherwise [Upload failed:]
    with the text of the first refusal, and then the refused call was the
    last one made; otherwise the success message, and then the whole plan
    was sent.  The flag is true in the last case only. *)
Theorem upload_message_tells_the_cause (h : hub) (w : world)
    (repo tok : str) (inc : bool) :
  exists b m w',
    upload_to_huggingface h repo tok inc w = Ok (b, m) w' /\
    (data_file w = None <-> m = py "No local dataset found.") /\
    ((m = py "No local dataset found." /\ b = false /\ w' = w) \/
     (exists err,
        m = py "Login failed: " ++ err /\ b = false /\
        initialize_hf_api h tok w = Ok (LoginFailed err) w' /\
        uploads w' = uploads w) \/
     (exists pre call post err,
        m = py "Upload failed: " ++ err /\ b = false /\
        upload_plan w repo tok inc = pre ++ call :: post /\
        accepted h (uploads w) pre /\
        upload_file h (uploads w ++ pre) call = Some err /\
        uploads w' = uploads w ++ pre ++ [call]) \/
     (m = py "Dataset uploaded successfully to: https://huggingface.co/datasets/"
            ++ repo /\
      b = true /\
      accepted h (uploads w) (upload_plan w repo tok inc) /\
      uploads w' = uploads w ++ upload_plan w repo tok inc)).
Proof.
  destruct (upload_cases h w repo tok inc) as [b [m [w' [Hrun Hcases]]]].
  exists b, m, w'. split; [exact Hrun|].
  destruct Hcases
    as [[Hf [Hb [Hm Hw]]]
       |[[f [err [Hf [Hinit [Hb Hm]]]]]
        |[[f [c [pre [call [post [err [Hf [Hinit [Hplan [Hacc [Herr
             [Hb [Hm Hw]]]]]]]]]]]]]
         |[f [c [Hf [Hinit [Hacc [Hb [Hm Hw]]]]]]]]]].
  - split; [split; intros _; assumption|]. left. repeat split; assumption.
  - split.
    + rewrite Hf, Hm. split; intros H; [discriminate H|].
      vm_compute in H. discriminate H.
    + right. left. exists err.
      split; [exact Hm|]. split; [exact Hb|]. split; [exact Hinit|].
      apply (initialize_hf_api_frame h tok w w' _ Hinit).
  - split.
    + rewrite Hf, Hm. split; intros H; [discriminate H|].
      vm_compute in H. discriminate H.
    + right. right. left. exists pre, call, post, err.
      split; [exact Hm|]. split; [exact Hb|]. split; [exact Hplan|].
      split; [exact Hacc|]. split; [exact Herr|].
      rewrite Hw. reflexivity.
  - split.
    + rewrite Hf, Hm. split; intros H; [discriminate H|].
      vm_compute in H. discriminate H.
    + right. right. right.
      split; [exact Hm|]. split; [exact Hb|]. split; [exact Hacc|].
      rewrite Hw. reflexivity.
Qed.

(** X19: After a successful save, the Upload button of the next run gets
    past both of its checks for data: with a token and a repository
    entered, the frame it loads has a row and the backing file exists, so
    what it shows is the outcome of a login or of an upload, never
    [No recipes to upload] or [No local dataset found.]. *)
Theorem saved_recipe_can_be_uploaded (h : hub) (w w' : world)
    (r : row cell) (tok repo : str) (inc : bool) :
  save_recipe_locally r w = Ok tt w' ->
  forallb storable_line (written_lines w r) = true ->
  tok <> [] -> repo <> [] ->
  exists df w1 b m w2,
    load_existing_data w' = Ok df w1 /\
    rows df <> [] /\
    upload_clicked h tok repo df inc w1
    = upload_to_huggingface h repo tok inc w1 /\
    upload_clicked h tok repo df inc w1 = Ok (b, m) w2 /\
    m <> py "No recipes to upload" /\
    m <> py "No local dataset found.".
Proof.
  intros Hsave Hst Htok Hrepo.
  assert (Hok : forall err, data_file w <> Some (Unparsable err)).
  { intros err Hf. rewrite save_recipe_locally_run, Hf in Hsave.
    discriminate Hsave. }
  rewrite (save_storable r w Hok Hst) in Hsave. injection Hsave as <-.
  destruct (written_lines_spec w r) as [old [new_line [Hlines _]]].
  set (df := read_table (written_lines w r)).
  set (w1 := with_load_cache (Some df)
               (with_load_cache None
                  (with_data_file (Some (Table (written_lines w r))) w))).
  assert (Hrows : rows df <> []).
  { unfold df, read_table. cbn [rows]. rewrite Hlines, map_app.
    cbn [map]. intros H. apply app_eq_nil in H. destruct H as [_ H].
    discriminate H. }
  assert (Hclick : upload_clicked h tok repo df inc w1
                   = upload_to_huggingface h repo tok inc w1).
  { unfold upload_clicked, frame_empty.
    destruct tok as [|t tok]; [congruence|].
    destruct repo as [|c repo]; [congruence|].
    destruct (rows df); [congruence | reflexivity]. }
  destruct (upload_cases h w1 repo tok inc) as [b [m [w2 [Hrun Hcases]]]].
  exists df, w1, b, m, w2.
  split; [rewrite load_existing_data_run; reflexivity|].
  split; [exact Hrows|]. split; [exact Hclick|].
  split; [rewrite Hclick; exact Hrun|].
  destruct Hcases
    as [[Hf _]
       |[[f [err [_ [_ [_ Hm]]]]]
        |[[f [c [pre [call [post [err [_ [_ [_ [_ [_ [_ [Hm _]]]]]]]]]]]]]
         |[f [c [_ [_ [_ [_ [Hm _]]]]]]]]]].
  - discriminate Hf.
  - rewrite Hm. split; intros H; vm_compute in H; discriminate H.
  - rewrite Hm. split; intros H; vm_compute in H; discriminate H.
  - rewrite Hm. split; intros H; vm_compute in H; discriminate H.
Qed.



(** ** The token on disk *)

Lemma encode_plain (t : str) :
  forallb plain_char t = true -> flat_map Json.encode_char t = t.
Proof.
  induction t as [|c t IH]; cbn [forallb flat_map]; [reflexivity|].
  intros H. apply andb_true_iff in H. destruct H as [Hc Ht].
  rewrite (IH Ht). unfold plain_char in Hc.
  rewrite !andb_true_iff, !negb_true_iff in Hc.
  destruct Hc as [[[Hlo Hhi] H34] H92].
  unfold Json.encode_char. rewrite H34, H92.
  destruct (N.eqb_spec c 10) as [->|_]; [cbv in Hlo; discriminate Hlo|].
  destruct (N.eqb_spec c 13) as [->|_]; [cbv in Hlo; discriminate Hlo|].
  destruct (N.eqb_spec c 9) as [->|_]; [cbv in Hlo; discriminate Hlo|].
  destruct (N.eqb_spec c 8) as [->|_]; [cbv in Hlo; discriminate Hlo|].
  destruct (N.eqb_spec c 12) as [->|_]; [cbv in Hlo; discriminate Hlo|].
  rewrite Hlo, Hhi. reflexivity.
Qed.

Lemma dumps_holds_member (kv : str * str) (config : list (str * str)) :
  In kv config ->
  exists pre post, Json.dumps config = pre ++ Json.member kv ++ post.
Proof.
  destruct config as [|kv0 rest]; [intros []|].
  intros [->|Hin].
  - exists [123%N]. eexists. reflexivity.
  - assert (Hrest : exists pre post,
              flat_map (fun kv' => [44; 32]%N ++ Json.member kv') rest
              = pre ++ Json.member kv ++ post).
    { induction rest as [|kv1 rest IH]; [destruct Hin|].
      destruct Hin as [->|Hin].
      - exists [44; 32]%N. eexists. cbn [flat_map].
        rewrite <- !app_assoc. reflexivity.
      - destruct (IH Hin) as [pre [post Heq]].
        exists (([44; 32]%N ++ Json.member kv1) ++ pre), post.
        cbn [flat_map]. rewrite Heq, <- !app_assoc. reflexivity. }
    destruct Hrest as [pre [post Heq]].
    exists (123%N :: Json.member kv0 ++ pre), (post ++ [125%N]).
    unfold Json.dumps. rewrite Heq.
    cbn [app]. rewrite <- !app_assoc. reflexivity.
Qed.

Lemma dict_set_holds (key value : str) (config : list (str * str)) :
  In (key, value) (dict_set key value config).
Proof.
  induction config as [|[k v] config IH]; cbn [dict_set]; [left; reflexivity|].
  destruct (bool_decide (k = key)); [left; reflexivity | right; exact IH].
Qed.

Lemma dict_set_keeps (key value : str) (config : list (str * str))
    (kv : str * str) :
  fst kv <> key -> In kv config -> In kv (dict_set key value config).
Proof.
  intros Hne. induction config as [|[k v] config IH]; [intros []|].
  cbn [dict_set]. destruct (bool_decide (k = key)) eqn:E.
  - apply bool_decide_eq_true_1 in E. subst k.
    intros [<-|Hin]; [exfalso; apply Hne; reflexivity | right; exact Hin].
  - intros [<-|Hin]; [left; reflexivity | right; apply IH; exact Hin].
Qed.

(** X21: A token made of printable ASCII characters other than the quote and
    the backslash is written to [app_config.json] as it was entered, between
    quotes after its key: whoever reads the file reads the token. *)
Theorem token_is_stored_in_clear (config_file : option str)
    (config : list (str * str)) (tok repo : str) :
  load_config config_file = Some config ->
  tok <> [] -> forallb plain_char tok = true ->
  exists text pre post,
    keep_settings config_file tok repo = Some (Some text) /\
    text = pre ++ (34%N :: py "hf_token") ++ [34; 58; 32; 34]%N
               ++ tok ++ 34%N :: post.
Proof.
  intros Hload Htok Hplain.
  assert (Hmember : Json.member (py "hf_token", tok)
                    = (34%N :: py "hf_token") ++ [34; 58; 32; 34]%N
                        ++ tok ++ [34%N]).
  { unfold Json.member, Json.quote. cbn [fst snd].
    rewrite (encode_plain tok Hplain). reflexivity. }
  assert (Hin : In (py "hf_token", tok)
                  (dict_set (py "hf_token") tok config))
    by apply dict_set_holds.
  assert (Hfile : forall config',
            In (py "hf_token", tok) config' ->
            exists pre post,
              Json.dumps config'
              = pre ++ (34%N :: py "hf_token") ++ [34; 58; 32; 34]%N
                    ++ tok ++ 34%N :: post).
  { intros config' Hin'.
    destruct (dumps_holds_member _ _ Hin') as [pre [post Heq]].
    exists pre, post. rewrite Heq, Hmember, <- !app_assoc. reflexivity. }
  unfold keep_settings. rewrite Hload.
  destruct tok as [|t tok']; [congruence|].
  destruct repo as [|c repo'].
  - destruct (Hfile _ Hin) as [pre [post Heq]].
    eexists _, pre, post. split; [reflexivity | exact Heq].
  - assert (Hin2 : In (py "hf_token", t :: tok')
                     (dict_set (py "repo_id") (c :: repo')
                        (dict_set (py "hf_token") (t :: tok') config))).
    { apply dict_set_keeps; [|exact Hin]. vm_compute. discriminate. }
    destruct (Hfile _ Hin2) as [pre [post Heq]].
    eexists _, pre, post. split; [reflexivity | exact Heq].
Qed.

End App.

(** ** The properties on sample inputs *)

Example md5_empty :
  MD5.hexdigest [] = py "d41d8cd98f00b204e9800998ecf8427e".
Proof. vm_compute. reflexivity. Qed.

Example md5_abc :
  MD5.hexdigest [x61; x62; x63] = py "900150983cd24fb0d6963f7d28e17f72".
Proof. vm_compute. reflexivity. Qed.

Example md5_two_blocks :
  MD5.hexdigest (repeat x61 80) = py "b15af9cdabbaea0516866a33d8fd0f98".
Proof. vm_compute. reflexivity. Qed.

Example validate_accepts :
  Validator.validate_recipe_data (Some (py "Dal"))
    (Some (py "rice, dal, water, salt"))
    (Some (py "boil everything together for twenty minutes")) = [].
Proof. vm_compute. reflexivity. Qed.

Example validate_rejects :
  Validator.validate_recipe_data (Some (py "Hi")) (Some (py "salt"))
    (Some (py "boil it"))
  = [Validator.name_error; Validator.ingredients_error;
     Validator.instructions_error].
Proof. vm_compute. reflexivity. Qed.

Example validate_trims :
  Validator.validate_recipe_data (Some (py "  Hi   ")) None (Some [])
  = [Validator.name_error; Validator.ingredients_error;
     Validator.instructions_error].
Proof. vm_compute. reflexivity. Qed.

Example filename_biryani (unicode_isalnum : N -> bool) :
  filename unicode_isalnum photo (py "Hyderabadi Biryani!")
  = py "Hyderabadi_Biryani_4a636c03.jpg".
Proof. vm_compute. reflexivity. Qed.

(** Two different byte contents under one name and one file name: the
    first 8 characters of their digests are the same. *)
Example filename_digest_collision (unicode_isalnum : N -> bool) :
  getvalue photo <> getvalue other_photo /\
  MD5.hexdigest (getvalue photo) <> MD5.hexdigest (getvalue other_photo) /\
  filename unicode_isalnum photo (py "Dal")
  = filename unicode_isalnum other_photo (py "Dal").
Proof.
  split; [discriminate|]. split; [vm_compute; discriminate|].
  vm_compute. reflexivity.
Qed.

(** C4 fails as stated: the same bytes under the display names [Dal!] and
    [Dal] are given the same file name. *)
Lemma different_names_same_filename :
  ~ (forall (unicode_isalnum : N -> bool) (img1 img2 : uploaded_file)
       (n1 n2 : list N),
       getvalue img1 <> getvalue img2 \/ n1 <> n2 ->
       filename unicode_isalnum img1 n1 <> filename unicode_isalnum img2 n2).
Proof.
  intros H.
  apply (H ascii_only photo photo (py "Dal!") (py "Dal")).
  - right. vm_compute. discriminate.
  - vm_compute. reflexivity.
Qed.

(** C1 fails as stated: a record saved with the default empty region is
    loaded with the missing value in that column, not with the empty
    text. *)
Lemma empty_region_not_round_tripped :
  ~ (forall (lib_repr : list (list N) -> list N -> list N) (w0 : world)
       (unprotected : list (row (list N)) -> csv_file * option exn)
       (subs : list (form * option (list N))),
       let records := map (fun s => recipe_data (fst s) (snd s)) subs in
       data_file w0 = None -> load_cache w0 = None ->
       exists w1 df w2,
         for_each records (save_recipe_locally lib_repr unprotected) w0
         = Ok tt w1 /\
         load_existing_data w1 = Ok df w2 /\
         rows df = records).
Proof.
  intros H.
  destruct (H verbatim fresh no_fault [(dal_form, None)] eq_refl eq_refl)
    as [w1 [df [w2 [Hrun [Hload Hrows]]]]].
  vm_compute in Hrun. injection Hrun as <-.
  vm_compute in Hload. injection Hload as <- _.
  vm_compute in Hrows. discriminate Hrows.
Qed.

Example empty_region_loaded_as_nan :
  exists w1 df w2,
    save_recipe_locally verbatim no_fault (recipe_data dal_form None) fresh
    = Ok tt w1 /\
    load_existing_data w1 = Ok df w2 /\
    region (recipe_data dal_form None) = VStr [] /\
    map region (rows df) = [VNaN] /\
    map name (rows df) = [VStr (py "Dal")] /\
    map total_time_minutes (rows df) = [VInt 60].
Proof.
  eexists _, _, _. split; [vm_compute; reflexivity|].
  split; [vm_compute; reflexivity|].
  repeat split.
Qed.

Ltac plain_sample :=
  repeat first [ apply List.Forall_nil | apply List.Forall_cons ];
  vm_compute;
  repeat split;
  first [ exact I | reflexivity | right; reflexivity | left; reflexivity ].

Lemma append_then_load_witness :
  let subs :=
    [ (dal_form, None);
      (biryani_form, Some (py "Hyderabadi_Biryani_4a636c03.jpg")) ] in
  let records := map (fun s => recipe_data (fst s) (snd s)) subs in
  data_file fresh = None /\ (subs = [] -> load_cache fresh = None) /\
  Forall plain_record records /\
  exists w1 df w2,
    for_each records (save_recipe_locally verbatim no_fault) fresh
    = Ok tt w1 /\
    load_existing_data w1 = Ok df w2 /\
    map name (rows df)
    = [VStr (py "Dal"); VStr (py "Hyderabadi Biryani!")] /\
    map region (rows df) = [VNaN; VStr (py "Telangana")] /\
    map image_filename (rows df)
    = [VNaN; VStr (py "Hyderabadi_Biryani_4a636c03.jpg")] /\
    map total_time_minutes (rows df) = [VInt 60; VInt 75].
Proof.
  intros subs records.
  assert (Hplain : Forall plain_record records) by plain_sample.
  split; [reflexivity|]. split; [reflexivity|]. split; [exact Hplain|].
  destruct (append_then_load verbatim no_fault fresh subs eq_refl
              (fun _ => eq_refl) Hplain)
    as [w1 [df [w2 [Hrun [Hload [Hrows [Htotal _]]]]]]].
  exists w1, df, w2.
  split; [exact Hrun|]. split; [exact Hload|].
  rewrite Hrows. repeat split.
Defined.


Lemma upload_without_dataset_witness :
  data_file fresh = None /\
  upload_to_huggingface open_hub (py "user/indic-recipes") (py "hf_token")
    true fresh
  = Ok (false, py "No local dataset found.") fresh.
Proof.
  split; [reflexivity|].
  destruct (upload_without_dataset open_hub fresh
              (py "user/indic-recipes") (py "hf_token") true eq_refl)
    as [w' [Hrun [Hsame _]]].
  rewrite Hrun, Hsame. reflexivity.
Defined.

Lemma upload_with_rejected_credential_witness :
  let tok := py "hf_bad" in
  let err := py "Invalid user token." in
  let w1 := with_hf_cache (<[tok := LoginFailed err]> ∅) stocked in
  initialize_hf_api closed_hub tok stocked = Ok (LoginFailed err) w1 /\
  exists w',
    upload_to_huggingface closed_hub (py "user/indic-recipes") tok true
      stocked
    = Ok (false, py "Login failed: Invalid user token.") w' /\
    uploads w' = [].
Proof.
  intros tok err w1.
  assert (Hinit : initialize_hf_api closed_hub tok stocked
                  = Ok (LoginFailed err) w1) by reflexivity.
  split; [exact Hinit|].
  destruct (upload_with_rejected_credential closed_hub stocked w1
              (py "user/indic-recipes") tok true err Hinit)
    as [m [w' [Hrun [Hup [_ [_ [Hm _]]]]]]].
  exists w'. rewrite Hrun, (Hm (Table [dal_line]) eq_refl).
  split; [reflexivity | exact Hup].
Defined.

Lemma upload_transmits_plan_witness :
  let tok := py "hf_token" in
  let repo := py "user/indic-recipes" in
  let w1 := with_hf_cache (<[tok := Client]> ∅) stocked in
  data_file stocked = Some (Table [dal_line]) /\
  initialize_hf_api open_hub tok stocked = Ok Client w1 /\
  accepted open_hub (uploads stocked) (upload_plan stocked repo tok true) /\
  exists w',
    upload_to_huggingface open_hub repo tok true stocked
    = Ok (true,
          py "Dataset uploaded successfully to: https://huggingface.co/datasets/user/indic-recipes")
         w' /\
    length (uploads w') = 3 /\
    In (py "images/Dal_4a636c03.jpg") (map path_in_repo (uploads w')) /\
    In (py "images/Idli_0cc175b9.png") (map path_in_repo (uploads w')).
Proof.
  intros tok repo w1.
  assert (Hinit : initialize_hf_api open_hub tok stocked = Ok Client w1)
    by reflexivity.
  assert (Hacc : accepted open_hub (uploads stocked)
                   (upload_plan stocked repo tok true))
    by (vm_compute; repeat split).
  split; [reflexivity|]. split; [exact Hinit|]. split; [exact Hacc|].
  destruct (proj2 (upload_transmits_plan open_hub stocked w1 repo tok true
                     (Table [dal_line]) eq_refl Hinit) Hacc)
    as [w' [Hrun [Hup _]]].
  exists w'. rewrite Hrun, Hup.
  split; [reflexivity|]. split; [reflexivity|].
  split; vm_compute; tauto.
Defined.

Lemma upload_stops_at_first_error_witness :
  let tok := py "hf_token" in
  let repo := py "user/indic-recipes" in
  let w1 := with_hf_cache (<[tok := Client]> ∅) stocked in
  let plan := upload_plan stocked repo tok true in
  let pre := firstn 1 plan in
  let c := nth 1 plan (dataset_call repo tok) in
  let post := skipn 2 plan in
  data_file stocked = Some (Table [dal_line]) /\
  initialize_hf_api flaky_hub tok stocked = Ok Client w1 /\
  plan = pre ++ c :: post /\
  accepted flaky_hub (uploads stocked) pre /\
  upload_file flaky_hub (uploads stocked ++ pre) c
  = Some (py "503 Service Unavailable") /\
  exists w',
    upload_to_huggingface flaky_hub repo tok true stocked
    = Ok (false, py "Upload failed: 503 Service Unavailable") w' /\
    length (uploads w') = 2 /\
    data_file w' = data_file stocked /\ images_dir w' = images_dir stocked.
Proof.
  intros tok repo w1 plan pre c post.
  assert (Hinit : initialize_hf_api flaky_hub tok stocked = Ok Client w1)
    by reflexivity.
  assert (Hplan : plan = pre ++ c :: post) by (vm_compute; reflexivity).
  assert (Hacc : accepted flaky_hub (uploads stocked) pre)
    by (vm_compute; repeat split).
  assert (Herr : upload_file flaky_hub (uploads stocked ++ pre) c
                 = Some (py "503 Service Unavailable")) by reflexivity.
  split; [reflexivity|]. split; [exact Hinit|]. split; [exact Hplan|].
  split; [exact Hacc|]. split; [exact Herr|].
  destruct (upload_stops_at_first_error flaky_hub stocked w1 repo tok true
              (Table [dal_line]) pre post c (py "503 Service Unavailable")
              eq_refl Hinit Hplan Hacc Herr)
    as [w' [Hrun [Hup [Hfile [Hdir _]]]]].
  exists w'. rewrite Hrun, Hup.
  split; [reflexivity|]. split; [reflexivity|]. split; assumption.
Defined.


Lemma upload_success_means_all_sent_witness :
  let tok := py "hf_token" in
  let repo := py "user/indic-recipes" in
  exists m w',
    upload_to_huggingface open_hub repo tok true stocked = Ok (true, m) w' /\
    accepted open_hub (uploads stocked) (upload_plan stocked repo tok true) /\
    length (uploads w') = 3.
Proof.
  intros tok repo.
  assert (Hrun : exists m w',
             upload_to_huggingface open_hub repo tok true stocked
             = Ok (true, m) w')
    by (eexists _, _; vm_compute; reflexivity).
  destruct Hrun as [m [w' Hrun]]. exists m, w'.
  destruct (upload_success_means_all_sent open_hub stocked w' repo tok m true
              Hrun) as [_ [Hacc [Hup _]]].
  split; [exact Hrun|]. split; [exact Hacc|]. rewrite Hup. reflexivity.
Defined.

Lemma login_outcome_is_kept_witness :
  let tok := py "hf_bad" in
  let err := py "Invalid user token." in
  let w1 := with_hf_cache (<[tok := LoginFailed err]> ∅) stocked in
  initialize_hf_api closed_hub tok stocked = Ok (LoginFailed err) w1 /\
  data_file stocked = Some (Table [dal_line]) /\
  initialize_hf_api open_hub tok w1 = Ok (LoginFailed err) w1 /\
  upload_to_huggingface open_hub (py "user/indic-recipes") tok true w1
  = Ok (false, py "Login failed: Invalid user token.") w1.
Proof.
  intros tok err w1.
  assert (Hinit : initialize_hf_api closed_hub tok stocked
                  = Ok (LoginFailed err) w1) by reflexivity.
  split; [exact Hinit|]. split; [reflexivity|].
  destruct (login_outcome_is_kept closed_hub open_hub tok
              (py "user/indic-recipes") true stocked w1 (LoginFailed err)
              (Table [dal_line]) Hinit eq_refl) as [Hagain [Hfail _]].
  split; [exact Hagain | exact (Hfail err eq_refl)].
Defined.

Lemma upload_retry_sends_everything_witness :
  let tok := py "hf_token" in
  let repo := py "user/indic-recipes" in
  let w1 := with_hf_cache (<[tok := Client]> ∅) stocked in
  let plan := upload_plan stocked repo tok true in
  let pre := firstn 1 plan in
  let c := nth 1 plan (dataset_call repo tok) in
  let post := skipn 2 plan in
  data_file stocked = Some (Table [dal_line]) /\
  initialize_hf_api flaky_hub tok stocked = Ok Client w1 /\
  plan = pre ++ c :: post /\
  accepted flaky_hub (uploads stocked) pre /\
  upload_file flaky_hub (uploads stocked ++ pre) c
  = Some (py "503 Service Unavailable") /\
  accepted open_hub (uploads stocked ++ pre ++ [c]) plan /\
  exists w' w'',
    upload_to_huggingface flaky_hub repo tok true stocked
    = Ok (false, py "Upload failed: 503 Service Unavailable") w' /\
    upload_to_huggingface open_hub repo tok true w'
    = Ok (true,
          py "Dataset uploaded successfully to: https://huggingface.co/datasets/user/indic-recipes")
         w'' /\
    length (uploads w'') = 5.
Proof.
  intros tok repo w1 plan pre c post.
  assert (Hinit : initialize_hf_api flaky_hub tok stocked = Ok Client w1)
    by reflexivity.
  assert (Hplan : plan = pre ++ c :: post) by (vm_compute; reflexivity).
  assert (Hacc : accepted flaky_hub (uploads stocked) pre)
    by (vm_compute; repeat split).
  assert (Herr : upload_file flaky_hub (uploads stocked ++ pre) c
                 = Some (py "503 Service Unavailable")) by reflexivity.
  assert (Hacc2 : accepted open_hub (uploads stocked ++ pre ++ [c]) plan)
    by (vm_compute; repeat split).
  split; [reflexivity|]. split; [exact Hinit|]. split; [exact Hplan|].
  split; [exact Hacc|]. split; [exact Herr|]. split; [exact Hacc2|].
  destruct (upload_retry_sends_everything flaky_hub open_hub stocked w1 repo
              tok true (Table [dal_line]) pre post c
              (py "503 Service Unavailable") eq_refl Hinit Hplan Hacc Herr
              Hacc2)
    as [w' [w'' [Hrun [Hrun2 Hup]]]].
  exists w', w''. rewrite Hrun, Hrun2, Hup.
  split; [reflexivity|]. split; reflexivity.
Defined.

Lemma stored_record_is_valid_witness :
  Validator.validate_recipe_data (Some (recipe_name biryani_form))
    (Some (form_ingredients biryani_form))
    (Some (form_instructions biryani_form)) = [] /\
  exists n,
    name (recipe_data biryani_form None) = VStr n /\
    3 <= length n /\ strip n = n.
Proof.
  assert (Hok : Validator.validate_recipe_data
                  (Some (recipe_name biryani_form))
                  (Some (form_ingredients biryani_form))
                  (Some (form_instructions biryani_form)) = [])
    by (vm_compute; reflexivity).
  split; [exact Hok|].
  destruct (stored_record_is_valid biryani_form None Hok)
    as [n [i [s [Hn [_ [_ [Hlen [_ [_ [Hstrip _]]]]]]]]]].
  exists n. split; [exact Hn|]. split; [exact Hlen | exact Hstrip].
Defined.


Lemma submit_fails_before_record_witness :
  Validator.validate_recipe_data (Some (recipe_name biryani_form))
    (Some (form_ingredients biryani_form))
    (Some (form_instructions biryani_form)) = [] /\
  image_file biryani_form = Some photo /\
  images_dir no_directory = None /\
  exists msg,
    submit ascii_only verbatim no_fault biryani_form no_directory
    = Raise (OSError msg) no_directory.
Proof.
  assert (Hok : Validator.validate_recipe_data
                  (Some (recipe_name biryani_form))
                  (Some (form_ingredients biryani_form))
                  (Some (form_instructions biryani_form)) = [])
    by (vm_compute; reflexivity).
  split; [exact Hok|]. split; [reflexivity|]. split; [reflexivity|].
  exact (submit_fails_before_record ascii_only verbatim no_fault
           biryani_form photo no_directory Hok eq_refl eq_refl).
Defined.


Lemma submit_rejects_without_effect_witness :
  Validator.trimmed_length (Some (recipe_name hasty_form)) < 3 /\
  exists e errors,
    submit ascii_only verbatim no_fault hasty_form fresh
    = Ok (Rejected (e :: errors)) fresh /\
    length (e :: errors) = 3.
Proof.
  assert (Hshort : Validator.trimmed_length (Some (recipe_name hasty_form))
                   < 3) by (vm_compute; lia).
  split; [exact Hshort|].
  destruct (submit_rejects_without_effect ascii_only verbatim no_fault
              hasty_form fresh (or_introl Hshort))
    as [e [errors [Herrors Hrun]]].
  exists e, errors. split; [exact Hrun|].
  rewrite <- Herrors. reflexivity.
Defined.

Lemma unreadable_file_is_kept_witness :
  let err := py "Error tokenizing data" in
  data_file damaged = Some (Unparsable err) /\
  save_recipe_locally verbatim no_fault (recipe_data dal_form None) damaged
  = Raise (ParserError err) damaged /\
  load_existing_data damaged = Raise (ParserError err) damaged.
Proof.
  intros err. split; [reflexivity|].
  destruct (unreadable_file_is_kept verbatim no_fault damaged
              (recipe_data dal_form None) err eq_refl)
    as [Hsave [Hload _]].
  split; [exact Hsave | exact (Hload eq_refl)].
Defined.

Lemma load_is_cached_witness :
  let w1 := with_load_cache (Some DataFrame_empty) fresh in
  load_existing_data fresh = Ok DataFrame_empty w1 /\
  load_existing_data (with_data_file (Some (Table [dal_line])) w1)
  = Ok DataFrame_empty (with_data_file (Some (Table [dal_line])) w1).
Proof.
  intros w1.
  assert (Hload : load_existing_data fresh = Ok DataFrame_empty w1)
    by reflexivity.
  split; [exact Hload|].
  exact (proj2 (load_is_cached fresh w1 DataFrame_empty Hload)
           (Some (Table [dal_line]))).
Defined.

Lemma saved_recipe_is_shown_last_witness :
  let r := recipe_data biryani_form
             (Some (py "Hyderabadi_Biryani_4a636c03.jpg")) in
  forallb storable_line (written_lines verbatim stocked r) = true /\
  is_text (py "Hyderabadi Biryani!") = true /\
  is_text (py "Telugu") = true /\
  exists w' df w'' earlier,
    save_recipe_locally verbatim no_fault r stocked = Ok tt w' /\
    load_existing_data w' = Ok df w'' /\
    recent_recipes df
    = earlier ++ [(VStr (py "Hyderabadi Biryani!"), VStr (py "Telugu"))].
Proof.
  intros r.
  assert (Hst : forallb storable_line (written_lines verbatim stocked r)
                = true) by (vm_compute; reflexivity).
  assert (Hn : is_text (py "Hyderabadi Biryani!") = true)
    by (vm_compute; reflexivity).
  assert (Hl : is_text (py "Telugu") = true) by (vm_compute; reflexivity).
  split; [exact Hst|]. split; [exact Hn|]. split; [exact Hl|].
  assert (Hrun : exists w',
             save_recipe_locally verbatim no_fault r stocked = Ok tt w')
    by (eexists; vm_compute; reflexivity).
  destruct Hrun as [w' Hrun].
  destruct (saved_recipe_is_shown_last verbatim no_fault stocked w' r
              (py "Hyderabadi Biryani!") (py "Telugu") Hrun Hst eq_refl
              eq_refl Hn Hl)
    as [df [w'' [earlier [Hload [Hrecent _]]]]].
  exists w', df, w'', earlier.
  split; [exact Hrun|]. split; [exact Hload | exact Hrecent].
Defined.

Lemma stored_config_wf : wf_config stored_config.
Proof.
  split.
  - apply NoDup_ListNoDup. repeat constructor;
      intros H; vm_compute in H; intuition discriminate.
  - repeat constructor.
Qed.

Lemma config_round_trip_witness :
  wf_config stored_config /\
  load_config (save_config stored_config) = Some stored_config.
Proof.
  split; [exact stored_config_wf|].
  exact (proj1 (config_round_trip stored_config stored_config_wf)).
Defined.


Lemma download_is_the_backing_file_witness :
  let rs :=
    [ recipe_data dal_form None;
      recipe_data biryani_form
        (Some (py "Hyderabadi_Biryani_4a636c03.jpg")) ] in
  data_file fresh = None /\ rs <> [] /\ Forall plain_record rs /\
  exists w1 df w2 line,
    for_each rs (save_recipe_locally verbatim no_fault) fresh = Ok tt w1 /\
    load_existing_data w1 = Ok df w2 /\
    data_file w2 = Some (csv_data verbatim no_fault df) /\
    csv_data verbatim no_fault df = Table [dal_line; line].
Proof.
  intros rs.
  assert (Hrs : rs <> []) by discriminate.
  assert (Hplain : Forall plain_record rs) by plain_sample.
  split; [reflexivity|]. split; [exact Hrs|]. split; [exact Hplain|].
  destruct (download_is_the_backing_file verbatim no_fault fresh rs eq_refl
              Hrs Hplain)
    as [w1 [df [w2 [Hrun [Hload [Hfile Hcsv]]]]]].
  exists w1, df, w2, (row_map (render verbatim)
                        (recipe_data biryani_form
                           (Some (py "Hyderabadi_Biryani_4a636c03.jpg")))).
  split; [exact Hrun|]. split; [exact Hload|]. split; [exact Hfile|].
  rewrite Hcsv. vm_compute. reflexivity.
Defined.

Lemma saved_recipe_can_be_uploaded_witness :
  let r := recipe_data biryani_form
             (Some (py "Hyderabadi_Biryani_4a636c03.jpg")) in
  let tok := py "hf_token" in
  let repo := py "user/indic-recipes" in
  forallb storable_line (written_lines verbatim stocked r) = true /\
  tok <> [] /\ repo <> [] /\
  exists w' df w1 b m w2,
    save_recipe_locally verbatim no_fault r stocked = Ok tt w' /\
    load_existing_data w' = Ok df w1 /\
    upload_clicked open_hub tok repo df true w1 = Ok (b, m) w2 /\
    m <> py "No recipes to upload".
Proof.
  intros r tok repo.
  assert (Hst : forallb storable_line (written_lines verbatim stocked r)
                = true) by (vm_compute; reflexivity).
  assert (Htok : tok <> []) by discriminate.
  assert (Hrepo : repo <> []) by discriminate.
  split; [exact Hst|]. split; [exact Htok|]. split; [exact Hrepo|].
  assert (Hrun : exists w',
             save_recipe_locally verbatim no_fault r stocked = Ok tt w')
    by (eexists; vm_compute; reflexivity).
  destruct Hrun as [w' Hrun].
  destruct (saved_recipe_can_be_uploaded verbatim no_fault open_hub stocked
              w' r tok repo true Hrun Hst Htok Hrepo)
    as [df [w1 [b [m [w2 [Hload [_ [_ [Hclick [Hm _]]]]]]]]]].
  exists w', df, w1, b, m, w2.
  split; [exact Hrun|]. split; [exact Hload|].
  split; [exact Hclick | exact Hm].
Defined.


Lemma token_is_stored_in_clear_witness :
  let tok := py "hf_AbC123" in
  load_config None = Some [] /\ tok <> [] /\
  forallb plain_char tok = true /\
  exists text pre post,
    keep_settings None tok [] = Some (Some text) /\
    text = pre ++ (34%N :: py "hf_token") ++ [34; 58; 32; 34]%N
               ++ tok ++ 34%N :: post.
Proof.
  intros tok.
  assert (Htok : tok <> []) by discriminate.
  assert (Hplain : forallb plain_char tok = true)
    by (vm_compute; reflexivity).
  split; [reflexivity|]. split; [exact Htok|]. split; [exact Hplain|].
  exact (token_is_stored_in_clear None [] tok [] eq_refl Htok Hplain).
Defined.
